(** * News Verifier backend: a shallow embedding of the /verify pipeline

    The first part embeds the code, following the layout of [backend/]:
    - [PyStr]      the string operations of Python the code relies on;
    - [NewsSearch] [news_search.py]: query preparation and result shaping;
    - [Models]     [models.py]: the response model and its verdict validator;
    - [Extract]    [extract.py]: single and batch article extraction;
    - [Groq]       [groq_client.py]: the analysis stage;
    - [Main]       [main.py]: the POST /verify handler;
    - [Demo]       one concrete environment on which the pipeline runs.
    The second part states and proves the properties, module by module
    ([PyStrFacts], [NewsSearchFacts], [ExtractFacts], [GroqFacts],
    [ModelsFacts], [MainFacts]).

    Characters are the code points below 256 ([ascii]); a Python [str] is a
    [string].  Library calls whose result the code only consumes
    ([str.lower], [json.loads], [int] on a string, [urlparse], the search and
    model clients, the article parser, the coercions of the response model)
    are Section variables: every theorem holds for whatever they return.  The
    handler receives the request content after [VerifyRequest] has validated
    it. *)

From Stdlib Require Import Ascii String ZArith QArith.
From stdpp Require Import gmap strings list fin_maps pretty.

(** ** Exceptions and outcomes *)

(** A Python exception, by the class the handlers distinguish and the text
    that [str(e)] yields. *)
Inductive exn_class := JSONDecodeError | ValueError | TypeError | OverflowError
                     | KeyError | IndexError | AttributeError | RecursionError
                     | OtherError.

Record exn := Exn { exn_cls : exn_class; exn_str : string }.

(** The result of a call that may raise. *)
Inductive outcome (A : Type) :=
| Returned (a : A)
| Raised (e : exn).
Arguments Returned {A} a.
Arguments Raised {A} e.

#[global] Instance outcome_ret : MRet outcome := fun _ a => Returned a.
#[global] Instance outcome_bind : MBind outcome := fun _ _ k o =>
  match o with
  | Returned a => k a
  | Raised e => Raised e
  end.

(** [try: o  except Exception as e: h e] *)
Definition try_except {A} (o : outcome A) (h : exn → outcome A) : outcome A :=
  match o with
  | Returned a => Returned a
  | Raised e => h e
  end.

(** ** Python string operations *)
Module PyStr.

(** [s[:n]] *)
Fixpoint take (n : nat) (s : string) : string :=
  match n, s with
  | O, _ => ""
  | S _, "" => ""
  | S n', String c s' => String c (take n' s')
  end.

(** [s.startswith(p)] *)
Fixpoint startswith (p s : string) : bool :=
  match p, s with
  | "", _ => true
  | String _ _, "" => false
  | String a p', String b s' => if Ascii.eqb a b then startswith p' s' else false
  end.

(** [s.startswith((p1, p2, ...))] *)
Definition startswith_any (ps : list string) (s : string) : bool :=
  existsb (fun p => startswith p s) ps.

Definition len (s : string) : nat := String.length s.

(** [c.isspace()] on the code points below 256: the ASCII separators and
    controls 9-13 and 28-32, NEL (133) and the no-break space (160). *)
Definition isspace (c : ascii) : bool :=
  let n := nat_of_ascii c in
  ((9 <=? n) && (n <=? 13)) || ((28 <=? n) && (n <=? 32)) || (n =? 133) || (n =? 160).

Fixpoint lstrip (s : string) : string :=
  match s with
  | "" => ""
  | String c s' => if isspace c then lstrip s' else s
  end.

Fixpoint rstrip (s : string) : string :=
  match s with
  | "" => ""
  | String c s' =>
      match rstrip s' with
      | "" => if isspace c then "" else String c ""
      | r => String c r
      end
  end.

(** [s.strip()] *)
Definition strip (s : string) : string := rstrip (lstrip s).

(** [s.split()]: the maximal runs of non-space characters, in order. *)
Fixpoint split_ws (s : string) : list string :=
  match s with
  | "" => []
  | String c s' =>
      if isspace c then split_ws s'
      else match s' with
           | "" => [String c ""]
           | String d _ =>
               if isspace d then String c "" :: split_ws s'
               else match split_ws s' with
                    | w :: ws => String c w :: ws
                    | [] => [String c ""]
                    end
           end
  end.

(** [sep.join(ws)] *)
Fixpoint join (sep : string) (ws : list string) : string :=
  match ws with
  | [] => ""
  | w :: ws' =>
      match ws' with
      | [] => w
      | _ :: _ => w +:+ sep +:+ join sep ws'
      end
  end.

(** The part of [s] before its last space, when it has one. *)
Fixpoint before_last_space (s : string) : option string :=
  match s with
  | "" => None
  | String c s' =>
      match before_last_space s' with
      | Some r => Some (String c r)
      | None => if Ascii.eqb c " " then Some "" else None
      end
  end.

(** [s.rsplit(' ', 1)[0]] *)
Definition rsplit1_head (s : string) : string :=
  default s (before_last_space s).

(** [p in s] for strings *)
Fixpoint contains (p s : string) : bool :=
  startswith p s ||
  match s with
  | "" => false
  | String _ s' => contains p s'
  end.

(** [s.split(sep)] for a non-empty [sep], scanning from the left; [skip]
    counts the characters of a separator just matched that are still to be
    passed over.  The first piece is the one under construction. *)
Fixpoint split_from (sep : string) (skip : nat) (s : string) : list string :=
  match s with
  | "" => [""]
  | String c s' =>
      match skip with
      | S k => split_from sep k s'
      | O =>
          if startswith sep s then "" :: split_from sep (len sep - 1) s'
          else match split_from sep 0 s' with
               | piece :: pieces => String c piece :: pieces
               | [] => [String c ""]
               end
      end
  end.

Definition split (sep s : string) : list string := split_from sep 0 s.

(** [s.replace(a, b)] for single characters *)
Fixpoint replace_char (a b : ascii) (s : string) : string :=
  match s with
  | "" => ""
  | String c s' => String (if Ascii.eqb c a then b else c) (replace_char a b s')
  end.

(** Truthiness of a [str]. *)
Definition nonempty_text (s : string) : bool := negb (String.eqb s "").

(** [c in s] for a character *)
Fixpoint has_char (c : ascii) (s : string) : bool :=
  match s with
  | "" => false
  | String d s' => Ascii.eqb c d || has_char c s'
  end.

(** No character of [s] is a space character. *)
Fixpoint spaceless (s : string) : bool :=
  match s with
  | "" => true
  | String c s' => negb (isspace c) && spaceless s'
  end.

(** A word as [split] produces them: non-empty, without space characters. *)
Definition is_word (w : string) : Prop := w ≠ "" ∧ spaceless w = true.

End PyStr.

(** ** news_search.py *)
Module NewsSearch.
Import PyStr.

(** An article as [search_related_news] shapes it. *)
Record Article := {
  title : string;
  url : string;
  source : string;
  snippet : string;
  published_date : string
}.

(** One entry of the search client's result lists; a key may be absent. *)
Record SerpItem := {
  item_title : option string;
  item_link : option string;
  item_source : option string;
  item_displayed_link : option string;
  item_snippet : option string;
  item_date : option string
}.

(** The dictionary [search.get_dict()] returns, as far as the code reads it. *)
Record SerpResults := {
  news_results : option (list SerpItem);
  organic_results : option (list SerpItem)
}.

Definition url_prefixes : list string := ["http://"; "https://"; "www."].

(** The words kept by the loop of [_prepare_search_query]. *)
Definition clean_words (content : string) : list string :=
  let query := strip (take 200 content) in
  filter (λ word, ¬ startswith_any url_prefixes word) (split_ws query).

Definition _prepare_search_query (content : string) : string :=
  let query := join " " (clean_words content) in
  if 150 <? len query then rsplit1_head (take 150 query) else query.

Definition news_article (item : SerpItem) : Article :=
  {| title := default "" (item_title item);
     url := default "" (item_link item);
     source := default "" (item_source item);
     snippet := default "" (item_snippet item);
     published_date := default "" (item_date item) |}.

Definition organic_article (item : SerpItem) : Article :=
  {| title := default "" (item_title item);
     url := default "" (item_link item);
     source := default "" (item_displayed_link item);
     snippet := default "" (item_snippet item);
     published_date := "" |}.

Section Searcher.
(** [GoogleSearch(params).get_dict()] for the query [q] and the count [num]. *)
Variable google_search : string → nat → outcome SerpResults.

Definition search_related_news (query : string) (num_results : nat)
  : outcome (list Article) :=
  try_except
    (let search_query := _prepare_search_query query in
     results ← google_search search_query (min num_results 10);
     let articles :=
       match news_results results with
       | Some items => news_article <$> firstn num_results items
       | None => []
       end in
     let articles :=
       if length articles <? num_results then
         match organic_results results with
         | Some items =>
             articles ++ (organic_article <$> firstn (num_results - length articles) items)
         | None => articles
         end
       else articles in
     mret articles)
    (λ _, mret []).
End Searcher.

(** A token of 160 letters. *)
Definition long_token : string := string_of_list_ascii (replicate 160 "a"%char).

End NewsSearch.

(** ** models.py *)
Module Models.

(** [VerifyResponse]: the fields after validation. *)
Record VerifyResponse := {
  verdict : string;
  confidence : Z;
  summary : string;
  evidence_links : list string
}.

Definition allowed : list string := ["True"; "False"; "Misleading"; "Unverified"].

Section Validator.
(** [str.lower] *)
Variable lower : string → string.

(** The [for allowed_verdict in allowed] loop of [validate_verdict]. *)
Fixpoint match_ci (v : string) (candidates : list string) : option string :=
  match candidates with
  | [] => None
  | a :: rest => if String.eqb (lower v) (lower a) then Some a else match_ci v rest
  end.

Definition validate_verdict (v : string) : string :=
  if negb (bool_decide (v ∈ allowed)) then
    match match_ci v allowed with
    | Some a => a
    | None => "Unverified"
    end
  else v.
End Validator.

(** A [lower] for plain ASCII text, used to run the validator. *)
Definition ascii_lower_char (c : ascii) : ascii :=
  let n := nat_of_ascii c in
  if (65 <=? n) && (n <=? 90) then ascii_of_nat (n + 32) else c.

Fixpoint ascii_lower (s : string) : string :=
  match s with
  | "" => ""
  | String c s' => String (ascii_lower_char c) (ascii_lower s')
  end.

End Models.

(** ** extract.py *)
Module Extract.
Import PyStr.

(** What the code reads of a downloaded and parsed [Article]. *)
Record ParsedArticle := { article_title : string; article_text : string }.

(** The line feed. *)
Definition nl : string := String (ascii_of_nat 10) "".

Abbreviation nonempty := nonempty_text.

(** [asyncio.gather] with [return_exceptions=True]: one entry per task, in
    the order of the tasks, holding its result or the exception it raised. *)
Definition gather {A} (tasks : list (outcome A)) : list (outcome A) := tasks.

(** The text of [_extract_sync] before stripping: the headline goes on top
    when the article has a title. *)
Definition with_headline (article : ParsedArticle) : string :=
  let text := article_text article in
  if nonempty (article_title article)
  then "HEADLINE: " +:+ article_title article +:+ nl +:+ nl +:+ text
  else text.

Section Extractor.
(** [Article(url)] followed by [download()] and [parse()]. *)
Variable article_parse : string → outcome ParsedArticle.

Definition _extract_sync (url : string) : outcome (option string) :=
  try_except
    (article ← article_parse url;
     let text := with_headline article in
     mret (if nonempty text then Some (strip text) else None))
    (λ _, mret None).

Definition extract_from_url (url : string) : outcome (option string) :=
  try_except
    (article_data ← _extract_sync url;
     match article_data with
     | Some data => if nonempty data then mret (Some data) else mret None
     | None => mret None
     end)
    (λ _, mret None).

(** The extraction of one URL fails: the parser raises, or nothing is left
    of the text once stripped. *)
Definition extraction_fails (url : string) : Prop :=
  match article_parse url with
  | Raised _ => True
  | Returned article => strip (with_headline article) = ""
  end.

(** What one extraction yields, failures absorbed into [None]. *)
Definition extracted (url : string) : option string :=
  match article_parse url with
  | Raised _ => None
  | Returned article =>
      let text := strip (with_headline article) in
      if nonempty text then Some text else None
  end.

(** The body of the [for url, result in zip(urls, results)] loop. *)
Definition record_result (url_to_text : gmap string (option string))
    (entry : string * outcome (option string)) : gmap string (option string) :=
  match entry.2 with
  | Raised _ => <[entry.1 := None]> url_to_text
  | Returned result => <[entry.1 := result]> url_to_text
  end.

Definition extract_multiple (urls : list string)
  : outcome (gmap string (option string)) :=
  try_except
    (let tasks := extract_from_url <$> urls in
     let results := gather tasks in
     let url_to_text := foldl record_result ∅ (zip urls results) in
     mret url_to_text)
    (λ _, mret (list_to_map ((λ url, (url, None)) <$> urls))).

End Extractor.

End Extract.

(** ** groq_client.py *)
Module Groq.
Import PyStr.

(** A Python [float]: a finite value is a rational, as every double is. *)
Inductive pyfloat := FFinite (q : Q) | FInf (negative : bool) | FNaN.

(** The values [json.loads] produces. *)
#[warnings="-register-all"]
Inductive json :=
| JNull
| JBool (b : bool)
| JInt (n : Z)
| JFloat (f : pyfloat)
| JString (s : string)
| JArray (items : list json)
| JObject (fields : gmap string json).

(** An entry of [related_contents], as main.py builds it. *)
Record RelatedContent := {
  rc_title : string;
  rc_source : string;
  rc_url : string;
  rc_text : string
}.

(** The built-in operations whose failure text the interpreter chooses. *)
Inductive builtin_op := OpContains | OpGetItem | OpSetItem | OpInt.

Definition dict (entries : list (string * json)) : json :=
  JObject (list_to_map entries).

(** The fallback of the [except json.JSONDecodeError] handler. *)
Definition parse_fallback : json :=
  dict [("verdict", JString "Unverified");
        ("confidence", JInt 0);
        ("summary", JString "Unable to verify: AI response parsing failed");
        ("evidence_links", JArray [])].

(** The error response of the outer [except Exception] handler. *)
Definition error_response (e : exn) : json :=
  dict [("verdict", JString "Unverified");
        ("confidence", JInt 0);
        ("summary", JString ("Verification failed due to technical error: " +:+ exn_str e));
        ("evidence_links", JArray [])].

Definition required_fields : list string := ["verdict"; "confidence"; "summary"].

(** [try: o  except json.JSONDecodeError as e: h e] *)
Definition try_except_decode {A} (o : outcome A) (h : exn → outcome A) : outcome A :=
  match o with
  | Returned a => Returned a
  | Raised e =>
      match exn_cls e with
      | JSONDecodeError => h e
      | _ => Raised e
      end
  end.

(** [l[i]] *)
Definition py_index (l : list string) (i : nat) : outcome string :=
  match l !! i with
  | Some x => mret x
  | None => Raised (Exn IndexError "list index out of range")
  end.

(** The unwrapping of a reply given inside a markdown code block. *)
Definition extract_fenced (response_text : string) : outcome string :=
  if contains "```json" response_text then
    inner ← py_index (split "```json" response_text) 1;
    first ← py_index (split "```" inner) 0;
    mret (strip first)
  else if contains "```" response_text then
    inner ← py_index (split "```" response_text) 1;
    first ← py_index (split "```" inner) 0;
    mret (strip first)
  else mret response_text.

(** [max(0, min(100, n))] *)
Definition clamp (n : Z) : Z := Z.max 0 (Z.min 100 n).

Section Client.
(** [json.loads]: the decoded value, or the exception it raises.  For a text
    that is no JSON document this is a [JSONDecodeError]; the decoder also
    raises [RecursionError] on a text nested too deeply and [ValueError] on
    an integer literal of more than 4300 digits. *)
Variable json_loads : string → outcome json.
(** [int(s)] for a string: the integer, or nothing for [ValueError]. *)
Variable int_of_str : string → option Z.
(** The text of the exception a built-in operation raises on a value. *)
Variable error_text : builtin_op → json → string.
(** The model call: the content of the first choice of the completion for the
    prompt built from the three arguments of [verify_news], or what the call
    (or reading the reply) raised. *)
Variable chat_completion : string → list RelatedContent → bool → outcome string.

Definition loads (text : string) : outcome json := json_loads text.

(** [item in container] *)
Definition py_contains (item : string) (container : json) : outcome bool :=
  match container with
  | JObject fields => mret (bool_decide (is_Some (fields !! item)))
  | JArray items =>
      mret (existsb (λ x, match x with JString s => String.eqb s item | _ => false end) items)
  | JString s => mret (contains item s)
  | _ => Raised (Exn TypeError (error_text OpContains container))
  end.

(** [container[key]] for a string key *)
Definition py_getitem (container : json) (key : string) : outcome json :=
  match container with
  | JObject fields =>
      match fields !! key with
      | Some value => mret value
      | None => Raised (Exn KeyError (error_text OpGetItem container))
      end
  | _ => Raised (Exn TypeError (error_text OpGetItem container))
  end.

(** [container[key] = value] for a string key *)
Definition py_setitem (container : json) (key : string) (value : json) : outcome json :=
  match container with
  | JObject fields => mret (JObject (<[key := value]> fields))
  | _ => Raised (Exn TypeError (error_text OpSetItem container))
  end.

(** [int(value)] *)
Definition py_int (value : json) : outcome Z :=
  match value with
  | JInt n => mret n
  | JBool b => mret (if b then 1 else 0)%Z
  | JFloat (FFinite q) => mret (Z.quot (Qnum q) (Z.pos (Qden q)))
  | JFloat (FInf _) => Raised (Exn OverflowError (error_text OpInt value))
  | JFloat FNaN => Raised (Exn ValueError (error_text OpInt value))
  | JString s =>
      match int_of_str s with
      | Some n => mret n
      | None => Raised (Exn ValueError (error_text OpInt value))
      end
  | _ => Raised (Exn TypeError (error_text OpInt value))
  end.

(** The [for field in required_fields] loop. *)
Fixpoint check_required (fields : list string) (result : json) : outcome unit :=
  match fields with
  | [] => mret ()
  | field :: rest =>
      present ← py_contains field result;
      if negb present
      then Raised (Exn ValueError ("Missing required field: " +:+ field))
      else check_required rest result
  end.

(** The first required field an object lacks, if any. *)
Definition first_missing (fields : gmap string json) : option string :=
  List.find (λ field, negb (bool_decide (is_Some (fields !! field)))) required_fields.

(** The object [verify_news] returns for the decoded object [fields] whose
    confidence converts to [n]. *)
Definition finalize (fields : gmap string json) (n : Z) : gmap string json :=
  let fields := <["confidence" := JInt (clamp n)]> (<["confidence" := JInt n]> fields) in
  if bool_decide (is_Some (fields !! "evidence_links")) then fields
  else <["evidence_links" := JArray []]> fields.

(** A result dictionary: the four keys are there and the confidence is an
    integer from 0 to 100. *)
Definition result_dict (result : json) : Prop :=
  ∃ (fields : gmap string json) (n : Z),
    result = JObject fields
    ∧ is_Some (fields !! "verdict")
    ∧ fields !! "confidence" = Some (JInt n) ∧ (0 ≤ n ≤ 100)%Z
    ∧ is_Some (fields !! "summary")
    ∧ is_Some (fields !! "evidence_links").

(** The body of the inner [try] of [verify_news]. *)
Definition parse_response (response_text : string) : outcome json :=
  response_text ← extract_fenced response_text;
  result ← loads response_text;
  _ ← check_required required_fields result;
  value ← py_getitem result "confidence";
  n ← py_int value;
  result ← py_setitem result "confidence" (JInt n);
  value ← py_getitem result "confidence";
  n ← match value with
      | JInt n => mret n
      | _ => Raised (Exn TypeError (error_text OpInt value))
      end;
  result ← py_setitem result "confidence" (JInt (clamp n));
  present ← py_contains "evidence_links" result;
  result ← (if negb present then py_setitem result "evidence_links" (JArray [])
            else mret result);
  _ ← py_getitem result "verdict";
  mret result.

Definition verify_news (main_content : string)
    (related_articles : list RelatedContent) (is_url : bool) : outcome json :=
  try_except
    (content ← chat_completion main_content related_articles is_url;
     let response_text := strip content in
     try_except_decode (parse_response response_text) (λ _, mret parse_fallback))
    (λ e, mret (error_response e)).

End Client.

End Groq.

(** ** main.py *)
Module Main.
Import PyStr Models NewsSearch Groq.

(** What the handler reads of [urlparse(url)]. *)
Record ParseResult := { netloc : string; path : string }.

(** What a call of the handler yields: a response, or the [HTTPException]
    it raises. *)
Inductive http_result :=
| Ok (response : VerifyResponse)
| HTTPException (status_code : nat) (detail : string).

(** The text of [AttributeError] for a method looked up on [None]. *)
Definition none_has_no_attribute (method : string) : exn :=
  Exn AttributeError ("'NoneType' object has no attribute '" +:+ method +:+ "'").

(** A method call on one of the module-level service handles, which are
    [None] until the lifespan hook has run. *)
Definition service_call {A} (initialized : bool) (method : string)
    (call : outcome A) : outcome A :=
  if initialized then call else Raised (none_has_no_attribute method).

Definition early_summary (e : exn) : string :=
  "Unable to extract content from the URL and search for related articles failed. Please try: 1) Check if the URL is accessible, 2) Try copying the article text directly, or 3) Verify your SerpAPI key is valid. Error: " +:+ exn_str e.

Section Handler.
(** The three services as the handler calls them. *)
Variable extract_from_url : string → outcome (option string).
Variable search_related_news : string → nat → outcome (list Article).
Variable groq_verify_news : string → list RelatedContent → bool → outcome json.
(** [urllib.parse.urlparse] *)
Variable urlparse : string → outcome ParseResult.
(** [str.lower] *)
Variable lower : string → string.
(** The text of the exception a built-in operation raises on a value. *)
Variable error_text : builtin_op → json → string.
(** What the response model makes of a field value that is not already of
    the declared type: the coerced value or a validation error. *)
Variable coerce_str : json → outcome string.
Variable coerce_int : json → outcome Z.
Variable validation_error : string → exn.

(** Step 1: the content to analyse and the flag [extraction_failed]. *)
Definition resolve_content (content : string) (is_url : bool) : outcome (string * bool) :=
  if is_url then
    try_except
      (extracted ← extract_from_url content;
       match extracted with
       | Some text =>
           if nonempty_text text && (50 <? len text) then mret (text, false)
           else
             parsed ← urlparse content;
             mret ("News article from " +:+ netloc parsed +:+ " - "
                   +:+ replace_char "/" " " (path parsed), true)
       | None =>
           parsed ← urlparse content;
           mret ("News article from " +:+ netloc parsed +:+ " - "
                 +:+ replace_char "/" " " (path parsed), true)
       end)
      (λ _,
         parsed ← urlparse content;
         mret ("News from " +:+ netloc parsed, true))
  else mret (content, false).

(** Step 2: the related articles, or the response returned at once when the
    search raises after a failed extraction of a URL. *)
Definition search_stage (content main_content : string) (is_url extraction_failed : bool)
  : VerifyResponse + list Article :=
  let search_query := if negb extraction_failed then take 500 main_content else content in
  match search_related_news search_query 10 with
  | Returned related_articles => inr related_articles
  | Raised e =>
      if extraction_failed && is_url then
        inl {| verdict := validate_verdict lower "Unverified";
               confidence := 0;
               summary := early_summary e;
               evidence_links := [content] |}
      else inr []
  end.

(** Step 3, the body of the loop over the related articles. *)
Definition collect_step (acc : list RelatedContent * list string) (article : Article)
  : list RelatedContent * list string :=
  match extract_from_url (url article) with
  | Returned (Some article_text) =>
      if nonempty_text article_text then
        (acc.1 ++ [{| rc_title := title article;
                      rc_source := source article;
                      rc_url := url article;
                      rc_text := take 1000 article_text |}],
         acc.2 ++ [url article])
      else acc
  | Returned None => acc
  | Raised _ => acc
  end.

Definition collect_evidence (related_articles : list Article)
  : list RelatedContent * list string :=
  foldl collect_step ([], []) related_articles.

Definition str_field (value : json) : outcome string :=
  match value with
  | JString s => mret s
  | _ => coerce_str value
  end.

Definition int_field (value : json) : outcome Z :=
  match value with
  | JInt n => mret n
  | _ => coerce_int value
  end.

Fixpoint str_list (items : list json) : outcome (list string) :=
  match items with
  | [] => mret []
  | item :: rest => s ← str_field item; ss ← str_list rest; mret (s :: ss)
  end.

(** [VerifyResponse] built from the keys of [analysis]: the declared fields
    are read from the mapping, checked, and the verdict goes through its validator. *)
Definition build_response (analysis : json) : outcome VerifyResponse :=
  match analysis with
  | JObject fields =>
      match fields !! "verdict", fields !! "confidence", fields !! "summary" with
      | Some v, Some c, Some s =>
          verdict ← str_field v;
          confidence ← int_field c;
          summary ← str_field s;
          links ← match fields !! "evidence_links" with
                  | Some (JArray items) => str_list items
                  | Some _ => Raised (validation_error "evidence_links")
                  | None => mret []
                  end;
          if (0 <=? confidence)%Z && (confidence <=? 100)%Z then
            mret {| verdict := validate_verdict lower verdict;
                    confidence := confidence;
                    summary := summary;
                    evidence_links := links |}
          else Raised (validation_error "confidence")
      | _, _, _ => Raised (validation_error "field required")
      end
  | _ => Raised (Exn TypeError (error_text OpGetItem analysis))
  end.

(** Step 4, the inner [try] and its handler. *)
Definition analysis_stage (main_content : string) (related_contents : list RelatedContent)
    (evidence_links : list string) (is_url : bool) : http_result :=
  match
    (analysis ← groq_verify_news main_content related_contents is_url;
     analysis ← Groq.py_setitem error_text analysis "evidence_links"
                  (JArray (JString <$> firstn 5 evidence_links));
     _ ← Groq.py_getitem error_text analysis "verdict";
     build_response analysis)
  with
  | Returned response => Ok response
  | Raised e => HTTPException 500 ("AI analysis failed: " +:+ exn_str e)
  end.

(** Steps 1 to 3: the response of the early return, or the content, the
    related contents and the evidence links handed to the analysis. *)
Definition steps_1_to_3 (content : string)
  : outcome (VerifyResponse + (string * list RelatedContent * list string)) :=
  let is_url := startswith_any ["http://"; "https://"] content in
  resolved ← resolve_content content is_url;
  match search_stage content resolved.1 is_url resolved.2 with
  | inl response => mret (inl response)
  | inr related_articles =>
      let collected := collect_evidence related_articles in
      mret (inr (resolved.1, collected.1, collected.2))
  end.

(** The handler of POST /verify, over the three services; the outer
    [except Exception] turns what steps 1 to 3 raise into a 500. *)
Definition verify_news_with (content : string) : http_result :=
  let is_url := startswith_any ["http://"; "https://"] content in
  match steps_1_to_3 content with
  | Raised e => HTTPException 500 ("Verification process failed: " +:+ exn_str e)
  | Returned (inl response) => Ok response
  | Returned (inr (main_content, related_contents, evidence_links)) =>
      analysis_stage main_content related_contents evidence_links is_url
  end.

(** The extraction of [url] gave a text the loop of step 3 keeps. *)
Definition extracts (url : string) : bool :=
  match extract_from_url url with
  | Returned (Some article_text) => nonempty_text article_text
  | _ => false
  end.

End Handler.

Section App.
(** The libraries and remote services behind the three clients. *)
Variable article_parse : string → outcome Extract.ParsedArticle.
Variable google_search : string → nat → outcome SerpResults.
Variable chat_completion : string → list RelatedContent → bool → outcome string.
Variable json_loads : string → outcome json.
Variable int_of_str : string → option Z.
Variable urlparse : string → outcome ParseResult.
Variable lower : string → string.
Variable error_text : builtin_op → json → string.
Variable coerce_str : json → outcome string.
Variable coerce_int : json → outcome Z.
Variable validation_error : string → exn.

(** The module-level handles: the instances of the three classes once the
    lifespan hook has run, [None] before. *)
Definition article_extractor (initialized : bool) (url : string) : outcome (option string) :=
  service_call initialized "extract_from_url" (Extract.extract_from_url article_parse url).

Definition news_searcher (initialized : bool) (query : string) (num_results : nat)
  : outcome (list Article) :=
  service_call initialized "search_related_news"
    (NewsSearch.search_related_news google_search query num_results).

Definition groq_client (initialized : bool) (main_content : string)
    (related_articles : list RelatedContent) (is_url : bool) : outcome json :=
  service_call initialized "verify_news"
    (Groq.verify_news json_loads int_of_str error_text chat_completion
       main_content related_articles is_url).

(** Steps 1 to 3 of the handler over these handles. *)
Definition analysis_inputs (initialized : bool) (content : string)
  : outcome (VerifyResponse + (string * list RelatedContent * list string)) :=
  steps_1_to_3 (article_extractor initialized) (news_searcher initialized)
    urlparse lower content.

(** POST /verify. *)
Definition verify_news (initialized : bool) (content : string) : http_result :=
  verify_news_with (article_extractor initialized) (news_searcher initialized)
    (groq_client initialized)
    urlparse lower error_text coerce_str coerce_int validation_error content.

End App.

End Main.

(** ** A concrete environment

    One instance of every library call and remote service, on which the
    pipeline can be run. *)
Module Demo.
Import PyStr Models NewsSearch Groq Main.

(** A parser for three pages: a full article, a page that cannot be fetched
    and a page without text. *)
Definition demo_parse (url : string) : outcome Extract.ParsedArticle :=
  if String.eqb url "https://a.example/1" then
    Returned {| Extract.article_title := "Storm hits coast";
               Extract.article_text := "Heavy rain fell. " |}
  else if String.eqb url "https://b.example/2" then
    Raised (Exn OtherError "Article download failed")
  else Returned {| Extract.article_title := "";
               Extract.article_text := "" |}.

Definition demo_urls : list string :=
  ["https://a.example/1"; "https://b.example/2"; "https://c.example/3"].

(** The double quote. *)
Definition dq : string := String (ascii_of_nat 34) "".

(** [{"verdict": "True", "confidence": 90}] *)
Definition reply_without_summary : string :=
  "{" +:+ dq +:+ "verdict" +:+ dq +:+ ": " +:+ dq +:+ "True" +:+ dq +:+ ", "
  +:+ dq +:+ "confidence" +:+ dq +:+ ": 90}".

(** [{"verdict":"true","confidence":150,"summary":"x"}] *)
Definition reply_object : string :=
  "{" +:+ dq +:+ "verdict" +:+ dq +:+ ":" +:+ dq +:+ "true" +:+ dq +:+ ","
  +:+ dq +:+ "confidence" +:+ dq +:+ ":150,"
  +:+ dq +:+ "summary" +:+ dq +:+ ":" +:+ dq +:+ "x" +:+ dq +:+ "}".

(** The same object inside a markdown code block. *)
Definition reply_fenced : string :=
  "```json" +:+ Extract.nl +:+ reply_object +:+ Extract.nl +:+ "```".

(** [n] copies of [s], one after the other. *)
Fixpoint repeated (n : nat) (s : string) : string :=
  match n with
  | O => ""
  | S n' => s +:+ repeated n' s
  end.

(** Five thousand opening brackets: a text nested too deeply for the decoder. *)
Definition reply_nested : string := repeated (50 * 100) "[".

(** [json.loads] on the two objects above and on the nested text; any other
    text used below is not JSON. *)
Definition json_loads (text : string) : outcome json :=
  if String.eqb text reply_without_summary then
    Returned (dict [("verdict", JString "True"); ("confidence", JInt 90)])
  else if String.eqb text reply_object then
    Returned (dict [("verdict", JString "true"); ("confidence", JInt 150);
                    ("summary", JString "x")])
  else if String.eqb text reply_nested then
    Raised (Exn RecursionError
              "maximum recursion depth exceeded while decoding a JSON array from a unicode string")
  else Raised (Exn JSONDecodeError "Expecting value: line 1 column 1 (char 0)").

(** [int] on a string of decimal digits. *)
Fixpoint digits_value (acc : Z) (s : string) : option Z :=
  match s with
  | "" => Some acc
  | String c s' =>
      let n := nat_of_ascii c in
      if (48 <=? n) && (n <=? 57)
      then digits_value (10 * acc + Z.of_nat (n - 48))%Z s'
      else None
  end.

Definition int_of_str (s : string) : option Z :=
  match s with
  | "" => None
  | _ => digits_value 0 s
  end.

Definition type_name (value : json) : string :=
  match value with
  | JNull => "NoneType"
  | JBool _ => "bool"
  | JInt _ => "int"
  | JFloat _ => "float"
  | JString _ => "str"
  | JArray _ => "list"
  | JObject _ => "dict"
  end.

Definition error_text (op : builtin_op) (value : json) : string :=
  match op with
  | OpContains => "argument of type '" +:+ type_name value +:+ "' is not iterable"
  | OpGetItem => "'" +:+ type_name value +:+ "' object is not subscriptable"
  | OpSetItem => "'" +:+ type_name value +:+ "' object does not support item assignment"
  | OpInt =>
      match value with
      | JFloat (FInf _) => "cannot convert float infinity to integer"
      | JFloat FNaN => "cannot convert float NaN to integer"
      | JString _ => "invalid literal for int() with base 10"
      | _ => "int() argument must be a string, a bytes-like object or a real number, not '"
             +:+ type_name value +:+ "'"
      end
  end.

(** The characters of [s] before the first one satisfying [stop], and the
    rest. *)
Fixpoint span_until (stop : ascii → bool) (s : string) : string * string :=
  match s with
  | "" => ("", "")
  | String c s' =>
      if stop c then ("", s)
      else let '(before, rest) := span_until stop s' in (String c before, rest)
  end.

Definition one_of (chars : string) (c : ascii) : bool := has_char c chars.

Fixpoint drop (n : nat) (s : string) : string :=
  match n, s with
  | O, _ => s
  | S _, "" => ""
  | S n', String _ s' => drop n' s'
  end.

(** [urlparse] on an http or https URL without parameters: the host runs to
    the first of / ? #, the path to the first of ? #; a host with an unpaired
    square bracket raises [ValueError]. *)
Definition urlparse (url : string) : outcome ParseResult :=
  let after_scheme :=
    if startswith "https://" url then drop 8 url
    else if startswith "http://" url then drop 7 url
    else url in
  let '(host, rest) := span_until (one_of "/?#") after_scheme in
  let '(path, _) := span_until (one_of "?#") rest in
  if xorb (has_char "[" host) (has_char "]" host)
  then Raised (Exn ValueError "Invalid IPv6 URL")
  else Returned {| netloc := host; path := path |}.

Definition item (link title : string) : SerpItem :=
  {| item_title := Some title; item_link := Some link; item_source := Some "Example News";
     item_displayed_link := None; item_snippet := None; item_date := None |}.

(** A search that finds the three demo pages, whatever the query. *)
Definition google_search (query : string) (num : nat) : outcome SerpResults :=
  Returned {| news_results := Some [item "https://a.example/1" "Storm hits coast";
                                    item "https://b.example/2" "Storm";
                                    item "https://c.example/3" "Weather"];
              organic_results := None |}.

(** A search that finds one page and hands back, as its title, the query it
    was given. *)
Definition echo_search (query : string) (num : nat) : outcome SerpResults :=
  Returned {| news_results := Some [item "https://a.example/1" query];
              organic_results := None |}.

Definition claim_text : string := "A storm hit the coast on Monday.".
Definition claim_fenced : string := "Is it true that a storm hit the coast?".
Definition claim_partial : string := "Experts say the storm was the worst ever.".
Definition claim_nested : string := "The storm was nested in a larger system.".

(** The model: unreachable for [claim_text], answering the three other claims
    with the replies above and anything else with prose. *)
Definition chat_completion (main_content : string) (related_articles : list RelatedContent)
    (is_url : bool) : outcome string :=
  if String.eqb main_content claim_text then Raised (Exn OtherError "Connection error.")
  else if String.eqb main_content claim_fenced then Returned reply_fenced
  else if String.eqb main_content claim_partial then Returned reply_without_summary
  else if String.eqb main_content claim_nested then Returned reply_nested
  else Returned "I cannot verify this.".

Definition validation_error (what : string) : exn :=
  Exn ValueError ("1 validation error for VerifyResponse: " +:+ what).

(** A response model that converts nothing. *)
Definition coerce_str (value : json) : outcome string :=
  Raised (validation_error "str type expected").
Definition coerce_int (value : json) : outcome Z :=
  Raised (validation_error "value is not a valid integer").

(** The application over this environment. *)
Definition verify_news (initialized : bool) (content : string) : http_result :=
  Main.verify_news demo_parse google_search chat_completion json_loads int_of_str
    urlparse ascii_lower error_text coerce_str coerce_int validation_error
    initialized content.

Definition groq_verify_news := Groq.verify_news json_loads int_of_str error_text chat_completion.

(** The one related content the demo search and parser lead to. *)
Definition storm_content : RelatedContent :=
  {| rc_title := "Storm hits coast";
     rc_source := "Example News";
     rc_url := "https://a.example/1";
     rc_text := "HEADLINE: Storm hits coast" +:+ Extract.nl +:+ Extract.nl
                +:+ "Heavy rain fell." |}.

Definition reply_object_fields : gmap string json :=
  list_to_map [("verdict", JString "true"); ("confidence", JInt 150);
               ("summary", JString "x")].

(** A page that cannot be extracted and a search that is down. *)
Definition story_url : string := "https://news.example.com/story-1".

Definition failing_extractor (url : string) : outcome (option string) := Returned None.

Definition raising_extractor (url : string) : outcome (option string) :=
  Raised (Exn OtherError "Read timed out.").

Definition failing_searcher (query : string) (num_results : nat) : outcome (list Article) :=
  Raised (Exn OtherError "Search unavailable.").

End Demo.

(** ** More of the code

    The request model of [models.py], the metadata extraction of
    [extract.py] and [utils/helpers.py]. *)

(** Where a string starts and ends. *)
Module Ends.
Import PyStr.

Definition first_char (s : string) : option ascii :=
  match s with
  | "" => None
  | String c _ => Some c
  end.

Fixpoint last_char (s : string) : option ascii :=
  match s with
  | "" => None
  | String c s' =>
      match s' with
      | "" => Some c
      | String _ _ => last_char s'
      end
  end.

(** No space character at either end. *)
Definition trimmed (s : string) : Prop :=
  (∀ c, first_char s = Some c → isspace c = false)
  ∧ (∀ c, last_char s = Some c → isspace c = false).

(** Only space characters. *)
Fixpoint blank (s : string) : bool :=
  match s with
  | "" => true
  | String c s' => isspace c && blank s'
  end.

End Ends.

(** The related content the loop of step 3 in main.py builds from an
    article and the text extracted for it. *)
Module Related.
Import PyStr NewsSearch Groq.

Definition content_of (article : Article) (article_text : string) : RelatedContent :=
  {| rc_title := title article; rc_source := source article;
     rc_url := url article; rc_text := take 1000 article_text |}.

End Related.

(** [VerifyRequest] of models.py *)
Module Requests.
Import PyStr.

(** Why a request body is refused. *)
Inductive request_error := TooShort | TooLong | EmptyContent.

(** The [content] field: the length bounds of [Field] are checked on the
    value as sent, then [validate_content] runs. *)
Definition validate_content (v : string) : request_error + string :=
  if negb (nonempty_text (strip v)) then inl EmptyContent else inr (strip v).

Definition VerifyRequest (content : string) : request_error + string :=
  if len content <? 10 then inl TooShort
  else if 10000 <? len content then inl TooLong
  else validate_content content.

End Requests.

(** [extract_with_metadata] of extract.py *)
Module Metadata.
Import PyStr.

(** What [_extract_metadata_sync] reads of a parsed [Article]; the date is
    given by its [str], the summary is absent when the article has no such
    attribute. *)
Record ParsedPage := {
  page_title : string;
  page_text : string;
  page_authors : list string;
  page_publish_date : option string;
  page_top_image : string;
  page_summary : option string
}.

(** The metadata dictionary, by its keys. *)
Record ArticleMetadata := {
  meta_url : string;
  meta_title : string;
  meta_text : string;
  meta_authors : string;
  meta_publish_date : string;
  meta_top_image : string;
  meta_summary : string
}.

(** [x or d] for strings *)
Definition or_else (x d : string) : string := if nonempty_text x then x else d.

Section Extractor.
(** [Article(url)] followed by [download()] and [parse()]. *)
Variable page_parse : string → outcome ParsedPage.

Definition _extract_metadata_sync (url : string) : outcome (option ArticleMetadata) :=
  try_except
    (article ← page_parse url;
     let metadata :=
       {| meta_url := url;
          meta_title := or_else (page_title article) "No title";
          meta_text := or_else (page_text article) "";
          meta_authors :=
            match page_authors article with
            | [] => "Unknown"
            | _ :: _ => join ", " (page_authors article)
            end;
          meta_publish_date :=
            match page_publish_date article with
            | Some date => date
            | None => "Unknown"
            end;
          meta_top_image := or_else (page_top_image article) "";
          meta_summary := default "" (page_summary article) |} in
     mret (if nonempty_text (meta_text metadata) then Some metadata else None))
    (λ _, mret None).

Definition extract_with_metadata (url : string) : outcome (option ArticleMetadata) :=
  try_except
    (metadata ← _extract_metadata_sync url;
     match metadata with
     | Some m => mret (Some m)
     | None => mret None
     end)
    (λ _, mret None).

End Extractor.

End Metadata.

(** [_create_verification_prompt] of groq_client.py *)
Module Prompt.
Import PyStr Groq.

(** The line feed and the double quote, as one-character strings. *)
Definition nl : string := String (ascii_of_nat 10) "".
Definition dq : string := String (ascii_of_nat 34) "".

(** ['=' * 80] *)
Definition rule80 : string := string_of_list_ascii (replicate 80 "="%char).

(** [s[n:]] *)
Fixpoint drop (n : nat) (s : string) : string :=
  match n, s with
  | O, _ => s
  | S _, "" => ""
  | S n', String _ s' => drop n' s'
  end.

(** [s.split(c, maxsplit)] for a one-character separator. *)
Fixpoint split_char (c : ascii) (maxsplit : nat) (s : string) : list string :=
  match s with
  | "" => [""]
  | String d s' =>
      match maxsplit with
      | S m =>
          if Ascii.eqb d c then "" :: split_char c m s'
          else match split_char c maxsplit s' with
               | piece :: pieces => String d piece :: pieces
               | [] => [String d ""]
               end
      | O => [s]
      end
  end.

(** [s.replace(old, "")] for a non-empty [old]; [skip] counts the characters
    of an occurrence just found that are still to be dropped. *)
Fixpoint remove_from (old : string) (skip : nat) (s : string) : string :=
  match s with
  | "" => ""
  | String c s' =>
      match skip with
      | S k => remove_from old k s'
      | O =>
          if startswith old s then remove_from old (len old - 1) s'
          else String c (remove_from old 0 s')
      end
  end.

Definition remove_all (old s : string) : string := remove_from old 0 s.

(** The first block of [_create_verification_prompt]: the headline and the
    body of the content. *)
Definition headline_and_body (main_content : string) : string * string :=
  if startswith "HEADLINE:" main_content then
    let lines := split_char (ascii_of_nat 10) 2 main_content in
    let headline := strip (remove_all "HEADLINE:" (default "" (lines !! 0))) in
    let content_body :=
      if 2 <? length lines then default "" (lines !! 2)
      else if 1 <? length lines then default "" (lines !! 1)
      else "" in
    (headline, content_body)
  else ("", main_content).

Definition intro_lines : list string :=
  ["You are an expert fact-checker and news analyst. Your task is to verify news content by analyzing it against credible sources.";
   "";
   rule80;
   "ARTICLE TO VERIFY:";
   rule80].

(** One entry of the loop over [enumerate(related_articles[:5], 1)]. *)
Definition source_block (idx : nat) (article : RelatedContent) : string :=
  nl +:+ "━━━ Source " +:+ pretty idx +:+ " ━━━" +:+ nl
  +:+ "Title: " +:+ rc_title article +:+ nl
  +:+ "Publisher: " +:+ rc_source article +:+ nl
  +:+ "URL: " +:+ rc_url article +:+ nl
  +:+ "Content Preview: " +:+ take 500 (rc_text article) +:+ nl
  +:+ "━━━━━━━━━━━━━━━━━━━" +:+ nl.

Fixpoint source_blocks (idx : nat) (articles : list RelatedContent) : string :=
  match articles with
  | [] => ""
  | article :: rest => source_block idx article +:+ source_blocks (S idx) rest
  end.

Definition task_lines : list string :=
  ["";
   rule80;
   "VERIFICATION TASK:";
   rule80;
   "";
   "1. ANALYZE THE HEADLINE (if present):";
   "   - Is it sensationalized or clickbait?";
   "   - Does it accurately represent the content?";
   "   - Is it making extraordinary claims?";
   "";
   "2. VERIFY THE CONTENT:";
   "   - Cross-reference with the related sources above";
   "   - Check if key facts match credible sources";
   "   - Identify any contradictions or inconsistencies";
   "   - Look for evidence of manipulation or misinformation";
   "";
   "3. DETERMINE VERDICT:";
   "   - **True**: Verified by multiple credible sources, facts are accurate";
   "   - **False**: Contradicted by credible sources, contains false information";
   "   - **Misleading**: Partially true but missing critical context or exaggerated";
   "   - **Unverified**: Insufficient credible sources to confirm or deny";
   "";
   "4. PROVIDE:";
   "   - A verdict (EXACTLY one of: True, False, Misleading, Unverified)";
   "   - A confidence score (0-100) based on source quality and consistency";
   "   - A clear, detailed summary explaining:";
   "     * What the article claims";
   "     * What you found in credible sources";
   "     * Why you reached this verdict";
   "     * Any important context or caveats";
   "";
   rule80;
   "RESPOND ONLY WITH VALID JSON - NO OTHER TEXT:";
   rule80;
   "";
   "{";
   "    " +:+ dq +:+ "verdict" +:+ dq +:+ ": " +:+ dq +:+ "True|False|Misleading|Unverified" +:+ dq +:+ ",";
   "    " +:+ dq +:+ "confidence" +:+ dq +:+ ": 0-100,";
   "    " +:+ dq +:+ "summary" +:+ dq +:+ ": " +:+ dq +:+ "Detailed explanation of your analysis, including what the headline/content claims and what you found in credible sources" +:+ dq +:+ "";
   "}";
   "";
   "CRITICAL: Output ONLY the JSON object above. No markdown, no code blocks, no additional text."].

Definition _create_verification_prompt (main_content : string)
    (related_articles : list RelatedContent) (is_url : bool) : string :=
  let '(headline, content_body) := headline_and_body main_content in
  let prompt := join nl intro_lines in
  let prompt :=
    if nonempty_text headline
    then prompt +:+ nl +:+ "HEADLINE: " +:+ headline +:+ nl
    else prompt in
  let prompt :=
    prompt +:+ nl +:+ "CONTENT:" +:+ nl +:+ take 2500 content_body +:+ nl +:+ nl
    +:+ rule80 +:+ nl +:+ "RELATED NEWS SOURCES FOR VERIFICATION:" +:+ nl
    +:+ rule80 +:+ nl in
  let prompt := prompt +:+ source_blocks 1 (firstn 5 related_articles) in
  prompt +:+ nl +:+ join nl task_lines.

End Prompt.

(** utils/helpers.py *)
Module Helpers.
Import PyStr.

(** [re.sub(r'\s+', ' ', text)]: every maximal run of space characters
    becomes one space. *)
Fixpoint collapse_spaces (s : string) : string :=
  match s with
  | "" => ""
  | String c s' =>
      if isspace c then
        match s' with
        | "" => " "
        | String d _ => if isspace d then collapse_spaces s' else String " " (collapse_spaces s')
        end
      else String c (collapse_spaces s')
  end.

(** The characters of [s] that [keep] accepts. *)
Fixpoint filter_chars (keep : ascii → bool) (s : string) : string :=
  match s with
  | "" => ""
  | String c s' => if keep c then String c (filter_chars keep s') else filter_chars keep s'
  end.

(** The punctuation the second pattern of [clean_text] lets through, the
    double quote apart. *)
Definition kept_punctuation : string := ".,!?;:-'()".

(** [s.rfind(c)]: the index of the last [c], if there is one. *)
Fixpoint rfind_char (c : ascii) (s : string) : option nat :=
  match s with
  | "" => None
  | String d s' =>
      match rfind_char c s' with
      | Some i => Some (S i)
      | None => if Ascii.eqb d c then Some 0 else None
      end
  end.

(** [truncate_text].  The test [last_period > max_length * 0.8] compares an
    integer with the product rounded to a double; for integers this is the
    same as [5 * last_period > 4 * max_length]. *)
Definition truncate_text (text : string) (max_length : nat) : string :=
  if len text <=? max_length then text
  else
    let truncated := take max_length text in
    match rfind_char "." truncated with
    | Some last_period =>
        if 4 * max_length <? 5 * last_period then take (last_period + 1) truncated
        else truncated +:+ "..."
    | None => truncated +:+ "..."
    end.

Section Helpers.
(** [str.lower] *)
Variable lower : string → string.
(** The characters the pattern [\w] matches. *)
Variable is_word_char : ascii → bool.

(** The characters the second pattern of [clean_text] keeps. *)
Definition kept (c : ascii) : bool :=
  is_word_char c || isspace c || has_char c kept_punctuation
  || Ascii.eqb c (ascii_of_nat 34).

Definition clean_text (text : string) : string :=
  let text := collapse_spaces text in
  let text := filter_chars kept text in
  strip text.

(** [calculate_text_similarity]; the quotient is the exact one, which the
    float returned rounds. *)
Definition calculate_text_similarity (text1 text2 : string) : Q :=
  let words1 : gset string := list_to_set (split_ws (lower text1)) in
  let words2 : gset string := list_to_set (split_ws (lower text2)) in
  if bool_decide (words1 = ∅) || bool_decide (words2 = ∅) then 0%Q
  else
    let intersection := words1 ∩ words2 in
    let union := words1 ∪ words2 in
    Qmake (Z.of_nat (size intersection)) (Pos.of_nat (size union)).

End Helpers.

End Helpers.

(** * Properties *)

(** ** The string operations *)
Module PyStrFacts.
Import PyStr.

Lemma len_take n s : len (take n s) = min n (len s).
Proof.
  revert s; induction n as [|n IH]; intros [|c s]; simpl; try done.
  unfold len in *. simpl. by rewrite IH.
Qed.

Lemma take_all n s : len s ≤ n → take n s = s.
Proof.
  revert s; induction n as [|n IH]; intros [|c s]; unfold len; simpl; try done; try lia.
  intros H. f_equal. apply IH. unfold len. lia.
Qed.

Lemma app_cons c s t : String c s +:+ t = String c (s +:+ t).
Proof. reflexivity. Qed.

Lemma len_app s t : len (s +:+ t) = len s + len t.
Proof. unfold len. induction s; simpl; [done | by rewrite IHs]. Qed.

Lemma take_app_le n s t : n ≤ len s → take n (s +:+ t) = take n s.
Proof.
  revert s; induction n as [|n IH]; intros [|c s]; unfold len; simpl; try done; try lia.
  intros H. f_equal. apply IH. unfold len. lia.
Qed.

Lemma take_app_gt n s t : len s ≤ n → take n (s +:+ t) = s +:+ take (n - len s) t.
Proof.
  revert s; induction n as [|n IH]; intros [|c s]; unfold len; simpl; try done; try lia.
  intros H. rewrite app_cons. f_equal. apply IH. unfold len. lia.
Qed.

Lemma startswith_take p n s : startswith p (take n s) = true → startswith p s = true.
Proof.
  revert n s; induction p as [|a p IH]; intros n s; [done|].
  destruct n as [|n], s as [|b s]; simpl; try done.
  destruct (Ascii.eqb a b); [apply IH | done].
Qed.

Lemma space_isspace : isspace " " = true.
Proof. reflexivity. Qed.

Lemma spaceless_has_space w : spaceless w = true → has_char " " w = false.
Proof.
  induction w as [|c w IH]; cbn [spaceless has_char]; [done|].
  intros [Hc Hw]%andb_true_iff. rewrite IH by done.
  destruct (Ascii.eqb " " c) eqn:E; [|done].
  apply Ascii.eqb_eq in E. subst c. vm_compute in Hc. discriminate Hc.
Qed.

Lemma spaceless_take n w : spaceless w = true → spaceless (take n w) = true.
Proof.
  revert w; induction n as [|n IH]; intros [|c w]; simpl; try done.
  intros [Hc Hw]%andb_true_iff. by rewrite Hc, IH.
Qed.

Lemma before_last_space_None s : before_last_space s = None ↔ has_char " " s = false.
Proof.
  induction s as [|c s IH]; cbn [before_last_space has_char]; [done|].
  rewrite (Ascii.eqb_sym " " c).
  destruct (before_last_space s); destruct (Ascii.eqb c " "); cbn [orb]; split; try done.
  - intros H. destruct IH as [_ IH]. by specialize (IH H).
  - intros _. by apply IH.
Qed.

Lemma before_last_space_len s r : before_last_space s = Some r → len r < len s.
Proof.
  revert r; induction s as [|c s IH]; intros r; cbn [before_last_space]; [done|].
  destruct (before_last_space s) as [r'|].
  - intros [= <-]. specialize (IH r' eq_refl). unfold len in *. simpl. lia.
  - destruct (Ascii.eqb c " "); [|done]. intros [= <-]. unfold len. simpl. lia.
Qed.

(** The cut is at the last space: what follows it holds no space. *)
Lemma before_last_space_split s r :
  before_last_space s = Some r →
  ∃ tail, s = r +:+ String " " tail ∧ has_char " " tail = false.
Proof.
  revert r; induction s as [|c s IH]; intros r; cbn [before_last_space]; [done|].
  destruct (before_last_space s) as [r'|] eqn:E.
  - intros [= <-]. destruct (IH r' eq_refl) as (tail & Hs & Ht).
    exists tail. split; [|done]. by rewrite app_cons, <- Hs.
  - destruct (Ascii.eqb_spec c " ") as [->|]; [|done]. intros [= <-].
    exists s. split; [done|]. by apply before_last_space_None.
Qed.

Lemma len_rsplit1_head s : len (rsplit1_head s) ≤ len s.
Proof.
  unfold rsplit1_head. destruct (before_last_space s) as [r|] eqn:E; simpl; [|done].
  apply before_last_space_len in E. lia.
Qed.

Lemma app_empty_r s : s +:+ "" = s.
Proof. induction s as [|c s IH]; [done|]. by rewrite app_cons, IH. Qed.

Lemma before_last_space_app w t r :
  before_last_space t = Some r → before_last_space (w +:+ t) = Some (w +:+ r).
Proof.
  intros H. induction w as [|c w IH]; [done|].
  rewrite !app_cons. cbn [before_last_space]. by rewrite IH.
Qed.

(** Cutting after a word and a space: the cut falls in the rest when the rest
    has a space, and else right after the word. *)
Lemma before_last_space_word_sep w x :
  before_last_space (w +:+ String " " x) =
  Some (match before_last_space x with Some r => w +:+ String " " r | None => w end).
Proof.
  destruct (before_last_space x) as [r|] eqn:E.
  - apply before_last_space_app. cbn [before_last_space]. by rewrite E.
  - rewrite <- (app_empty_r w) at 2. apply before_last_space_app.
    cbn [before_last_space]. by rewrite E.
Qed.

Lemma has_char_app_sep w x : has_char " " (w +:+ String " " x) = true.
Proof.
  induction w as [|c w IH]; [done|].
  rewrite app_cons. cbn [has_char]. rewrite IH. by destruct (Ascii.eqb " " c).
Qed.

Lemma is_word_cons c w : isspace c = false → spaceless w = true → is_word (String c w).
Proof. intros Hc Hw. split; [done|]. cbn [spaceless]. by rewrite Hc, Hw. Qed.

Lemma split_ws_is_word s : Forall is_word (split_ws s).
Proof.
  induction s as [|c s IH]; cbn [split_ws]; [constructor|].
  destruct (isspace c) eqn:Hc; [done|].
  destruct s as [|d s'].
  { repeat constructor; by apply is_word_cons. }
  destruct (isspace d) eqn:Hd.
  { constructor; [by apply is_word_cons | done]. }
  destruct (split_ws (String d s')) as [|w ws].
  { repeat constructor; by apply is_word_cons. }
  inversion IH as [|? ? [_ Hw] Hws]; subst.
  constructor; [by apply is_word_cons | done].
Qed.

Lemma split_ws_word w : is_word w → split_ws w = [w].
Proof.
  intros [Hne Hw]. induction w as [|c w IH]; [done|].
  cbn [spaceless] in Hw. apply andb_true_iff in Hw as [Hc Hw'].
  apply negb_true_iff in Hc. cbn [split_ws]. rewrite Hc.
  destruct w as [|d w']; [done|].
  rewrite IH by done.
  cbn [spaceless] in Hw'. apply andb_true_iff in Hw' as [Hd _].
  apply negb_true_iff in Hd. by rewrite Hd.
Qed.

Lemma split_ws_word_sep w x :
  is_word w → split_ws (w +:+ String " " x) = w :: split_ws x.
Proof.
  intros [Hne Hw]. induction w as [|c w IH]; [done|].
  cbn [spaceless] in Hw. apply andb_true_iff in Hw as [Hc Hw'].
  apply negb_true_iff in Hc. rewrite app_cons.
  destruct w as [|d w'].
  { change ("" +:+ String " " x) with (String " " x).
    cbn [split_ws]. by rewrite Hc, space_isspace. }
  cbn [split_ws]. rewrite Hc. rewrite IH by done. rewrite app_cons.
  cbn [spaceless] in Hw'. apply andb_true_iff in Hw' as [Hd _].
  apply negb_true_iff in Hd. by rewrite Hd.
Qed.

Lemma join_cons2 sep w w' ws :
  join sep (w :: w' :: ws) = w +:+ sep +:+ join sep (w' :: ws).
Proof. reflexivity. Qed.

(** Splitting a space-joined list of words gives the words back. *)
Lemma split_ws_join ws : Forall is_word ws → split_ws (join " " ws) = ws.
Proof.
  induction 1 as [|w ws Hw Hws IH]; [done|].
  destruct ws as [|w' ws]; [by apply split_ws_word|].
  rewrite join_cons2. change (" " +:+ ?x) with (String " " x).
  rewrite split_ws_word_sep by done. by rewrite IH.
Qed.

(** Cutting a prefix of a space-joined list of words at its last space
    leaves whole words. *)
Lemma before_last_space_take_join ws n r :
  Forall is_word ws →
  before_last_space (take n (join " " ws)) = Some r →
  ∃ k, 1 ≤ k ∧ r = join " " (firstn k ws).
Proof.
  intros Hws. revert n r. induction Hws as [|w ws Hw Hws IH]; intros n r.
  { by destruct n. }
  destruct ws as [|w' ws].
  { cbn [join]. intros H. destruct Hw as [_ Hw].
    apply (spaceless_take n), spaceless_has_space, before_last_space_None in Hw.
    congruence. }
  rewrite join_cons2. set (J := join " " (w' :: ws)) in *.
  change (" " +:+ J) with (String " " J).
  destruct (decide (n ≤ len w)) as [Hn|Hn].
  { rewrite take_app_le by done. intros H. destruct Hw as [_ Hw].
    apply (spaceless_take n), spaceless_has_space, before_last_space_None in Hw.
    congruence. }
  rewrite take_app_gt by lia.
  destruct (n - len w) as [|m] eqn:Em; [lia|].
  change (take (S m) (String " " J)) with (String " " (take m J)).
  rewrite before_last_space_word_sep.
  destruct (before_last_space (take m J)) as [r'|] eqn:E; intros Hr;
    injection Hr as <-.
  - destruct (IH _ _ E) as (k & Hk & ->). exists (S k). split; [lia|].
    destruct k as [|k]; [lia|]. reflexivity.
  - exists 1. split; [lia | reflexivity].
Qed.

(** A prefix without a space of a space-joined list of words lies within
    the first word. *)
Lemma take_join_spaceless w ws n :
  has_char " " (take n (join " " (w :: ws))) = false →
  take n (join " " (w :: ws)) = take n w.
Proof.
  destruct ws as [|w' ws]; [done|].
  rewrite join_cons2. change (" " +:+ ?x) with (String " " x).
  destruct (decide (n ≤ len w)) as [Hn|Hn]; [by rewrite take_app_le|].
  rewrite take_app_gt by lia.
  destruct (n - len w) as [|m] eqn:Em; [lia|].
  change (take (S m) (String " " ?x)) with (String " " (take m x)).
  by rewrite has_char_app_sep.
Qed.

End PyStrFacts.

(** ** news_search.py *)
Module NewsSearchFacts.
Import PyStr PyStrFacts NewsSearch.

Section Searcher.
Variable google_search : string → nat → outcome SerpResults.

Lemma search_related_news_returns query num_results :
  ∃ articles, search_related_news google_search query num_results = Returned articles.
Proof.
  unfold search_related_news.
  destruct (google_search _ _) as [results|e]; simpl; eauto.
Qed.
End Searcher.

Lemma clean_words_is_word content : Forall is_word (clean_words content).
Proof.
  unfold clean_words. apply Forall_forall. intros w [_ Hw]%list_elem_of_filter.
  revert w Hw. apply Forall_forall, split_ws_is_word.
Qed.

Lemma clean_words_no_url content :
  Forall (λ w, startswith_any url_prefixes w = false) (clean_words content).
Proof.
  unfold clean_words. apply Forall_forall. intros w [Hw _]%list_elem_of_filter.
  by destruct (startswith_any url_prefixes w).
Qed.

Lemma startswith_any_take ps n s :
  startswith_any ps s = false → startswith_any ps (take n s) = false.
Proof.
  unfold startswith_any. intros H.
  destruct (existsb _ ps) eqn:E in |- *; [|done].
  apply existsb_exists in E as (p & Hp & Hs). apply startswith_take in Hs.
  assert (existsb (λ p, startswith p s) ps = true) by (apply existsb_exists; eauto).
  congruence.
Qed.

Lemma no_url_tokens_join ws :
  Forall is_word ws →
  Forall (λ w, startswith_any url_prefixes w = false) ws →
  Forall (λ t, startswith_any url_prefixes t = false) (split_ws (join " " ws)).
Proof. intros Hw Hu. by rewrite split_ws_join. Qed.

Example prepare_search_query_strips_urls :
  _prepare_search_query "Breaking  https://t.co/x news www.site.org today" = "Breaking news today".
Proof. reflexivity. Qed.

(** C8, the claim as stated, fails: a single token of 160 letters is cut after
    its 150th letter, so the prepared query is not made of whole words of the
    cleaned input. *)
Lemma prepare_search_query_cuts_mid_word :
  clean_words long_token = [long_token]
  ∧ _prepare_search_query long_token = take 150 long_token
  ∧ ¬ ∃ k, _prepare_search_query long_token = join " " (firstn k (clean_words long_token)).
Proof.
  split; [by vm_compute|]. split; [by vm_compute|].
  intros [k Hk]. destruct k as [|[|k]]; vm_compute in Hk; discriminate Hk.
Qed.

(** C8, amended: for every input the prepared query has no token starting
    with http://, https:// or www., and is at most 150 characters long.  When
    the cleaned, space-joined query is longer than 150 characters and its
    first 150 characters contain a space, the query is what stands before
    the last space among these 150 characters (after that space no further
    space follows within them) and consists of whole words, the first ones
    of the cleaned query; when they contain no space (a first token longer
    than 150 characters) the query is the first 150 characters of that
    token. *)
Theorem prepare_search_query_spec (content : string) :
  let ws := clean_words content in
  let q := join " " ws in
  let out := _prepare_search_query content in
  Forall (λ t, startswith_any url_prefixes t = false) (split_ws out)
  ∧ len out ≤ 150
  ∧ ((len q ≤ 150 ∧ out = q)
     ∨ (150 < len q ∧ has_char " " (take 150 q) = true
        ∧ (∃ tail, take 150 q = out +:+ " " +:+ tail ∧ has_char " " tail = false)
        ∧ ∃ k, 1 ≤ k ∧ out = join " " (firstn k ws))
     ∨ (150 < len q ∧ has_char " " (take 150 q) = false
        ∧ ∃ w, head ws = Some w ∧ out = take 150 w)).
Proof.
  intros ws q out.
  pose proof (clean_words_is_word content) as Hw.
  pose proof (clean_words_no_url content) as Hu.
  fold ws in Hw, Hu.
  assert (Hcases :
    (len q ≤ 150 ∧ out = q)
    ∨ (150 < len q ∧ has_char " " (take 150 q) = true
       ∧ (∃ tail, take 150 q = out +:+ " " +:+ tail ∧ has_char " " tail = false)
       ∧ ∃ k, 1 ≤ k ∧ out = join " " (firstn k ws))
    ∨ (150 < len q ∧ has_char " " (take 150 q) = false
       ∧ ∃ w, head ws = Some w ∧ out = take 150 w)).
  { unfold out, _prepare_search_query. fold ws. fold q.
    destruct (150 <? len q) eqn:Hlen.
    2:{ left. apply Nat.ltb_ge in Hlen. done. }
    apply Nat.ltb_lt in Hlen. right. unfold rsplit1_head.
    destruct (before_last_space (take 150 q)) as [r|] eqn:E.
    - left. split; [done|]. split; [|split].
      + destruct (has_char " " (take 150 q)) eqn:Hc; [done|].
        apply before_last_space_None in Hc. congruence.
      + by apply before_last_space_split.
      + by apply (before_last_space_take_join ws 150).
    - right. apply before_last_space_None in E. split; [done|]. split; [done|].
      destruct ws as [|w ws'] eqn:Ews; [by vm_compute in Hlen; lia|].
      exists w. split; [done|]. by apply take_join_spaceless. }
  split; [|split; [|exact Hcases]].
  - destruct Hcases as [[_ ->] | [(_ & _ & _ & k & _ & ->) | (Hlen & Hc & w & Hhd & ->)]].
    + by apply no_url_tokens_join.
    + apply no_url_tokens_join; by apply Forall_take.
    + destruct ws as [|w' ws']; [done|]. injection Hhd as ->.
      apply Forall_cons in Hw as [[Hne Hsp] _]. apply Forall_cons in Hu as [Hu _].
      rewrite split_ws_word.
      * repeat constructor. by apply startswith_any_take.
      * split; [|by apply spaceless_take]. by destruct w.
  - unfold out, _prepare_search_query. fold ws. fold q.
    destruct (150 <? len q) eqn:Hlen; [|by apply Nat.ltb_ge in Hlen].
    etrans; [apply len_rsplit1_head|]. rewrite len_take. lia.
Qed.

(** The cut drops a word that ends exactly at the 150th character: for 74
    times "a", then "ab" and "c", the first 150 characters end with "ab",
    and the query keeps the 74 words before it. *)
Example prepare_search_query_drops_fitting_word :
  len (join " " (clean_words (Demo.repeated 74 "a " +:+ "ab c"))) = 152
  ∧ take 150 (join " " (clean_words (Demo.repeated 74 "a " +:+ "ab c")))
    = Demo.repeated 74 "a " +:+ "ab"
  ∧ _prepare_search_query (Demo.repeated 74 "a " +:+ "ab c")
    = join " " (replicate 74 "a").
Proof. split_and!; by vm_compute. Qed.

End NewsSearchFacts.

(** ** extract.py *)
Module ExtractFacts.
Import PyStr Extract Demo.

Section Extractor.
Variable article_parse : string → outcome ParsedArticle.

Local Abbreviation extract_from_url := (Extract.extract_from_url article_parse).
Local Abbreviation extract_multiple := (Extract.extract_multiple article_parse).
Local Abbreviation extracted := (Extract.extracted article_parse).
Local Abbreviation extraction_fails := (Extract.extraction_fails article_parse).

Lemma nonempty_false s : nonempty s = false ↔ s = "".
Proof.
  unfold nonempty. rewrite negb_false_iff. apply String.eqb_eq.
Qed.

Lemma extract_from_url_extracted url : extract_from_url url = Returned (extracted url).
Proof.
  unfold Extract.extract_from_url, _extract_sync, Extract.extracted.
  destruct (article_parse url) as [article|e]; [|done]. simpl.
  destruct (nonempty (with_headline article)) eqn:E; simpl.
  - by destruct (nonempty (strip _)).
  - apply nonempty_false in E. rewrite E. done.
Qed.

Lemma extracted_None url : extracted url = None ↔ extraction_fails url.
Proof.
  unfold Extract.extracted, Extract.extraction_fails.
  destruct (article_parse url) as [article|e]; [|done]. simpl.
  destruct (nonempty (strip _)) eqn:E.
  - split; [done|]. intros H. apply nonempty_false in H. congruence.
  - by apply nonempty_false in E.
Qed.

Lemma extracted_Some_nonempty url text : extracted url = Some text → text ≠ "".
Proof.
  unfold Extract.extracted. destruct (article_parse url) as [article|e]; [|done]. simpl.
  destruct (nonempty (strip _)) eqn:E; [|done]. intros [= <-] H.
  apply nonempty_false in H. congruence.
Qed.

(** The result loop, started from any map: every listed URL ends up bound to
    its own extraction, every other key keeps its binding. *)
Lemma record_results_lookup (urls : list string) (m : gmap string (option string)) u :
  foldl record_result m (zip urls (gather (extract_from_url <$> urls))) !! u
  = if decide (u ∈ urls) then Some (extracted u) else m !! u.
Proof.
  unfold gather. revert m. induction urls as [|v urls IH]; intros m.
  { cbn [fmap list_fmap zip zip_with foldl]. by rewrite decide_False by apply not_elem_of_nil. }
  cbn [fmap list_fmap zip zip_with foldl]. rewrite IH.
  unfold record_result. simpl. rewrite extract_from_url_extracted.
  destruct (decide (u ∈ urls)) as [Hu|Hu].
  - by rewrite decide_True by (by right).
  - destruct (decide (u = v)) as [->|Hne].
    + rewrite decide_True by left. by rewrite lookup_insert_eq.
    + rewrite decide_False by (by intros [?|?]%elem_of_cons).
      by rewrite lookup_insert_ne.
Qed.

Lemma record_results_dom (urls : list string) (m : gmap string (option string)) :
  dom (foldl record_result m (zip urls (gather (extract_from_url <$> urls))))
  = list_to_set urls ∪ dom m.
Proof.
  apply set_eq. intros u. rewrite elem_of_dom, record_results_lookup.
  rewrite elem_of_union, elem_of_list_to_set, elem_of_dom.
  destruct (decide (u ∈ urls)) as [Hu|Hu].
  - split; [by left | by eauto].
  - split; [by right | by intros [?|?]].
Qed.

(** C5: for every batch of distinct URLs, whichever of the single extractions
    raise or return nothing, the batch returns a mapping with exactly one
    entry per input URL; a URL is bound to null exactly when its own
    extraction fails, and every entry is what the extraction of that URL
    alone returns, also as a batch of one. *)
Theorem extract_multiple_isolation (urls : list string) :
  NoDup urls →
  ∃ m : gmap string (option string),
    extract_multiple urls = Returned m
    ∧ size m = length urls
    ∧ (∀ u, is_Some (m !! u) ↔ u ∈ urls)
    ∧ (∀ u, u ∈ urls → (m !! u = Some None ↔ extraction_fails u))
    ∧ (∀ u, u ∈ urls → extract_from_url u = Returned (default None (m !! u)))
    ∧ (∀ u, u ∈ urls →
         ∃ m1 : gmap string (option string),
           extract_multiple [u] = Returned m1 ∧ m1 !! u = m !! u).
Proof.
  intros Hnd. eexists. split; [reflexivity|].
  set (m := foldl record_result ∅ _).
  assert (Hlk : ∀ u, m !! u = if decide (u ∈ urls) then Some (extracted u) else None).
  { intros u. unfold m. rewrite record_results_lookup. by rewrite lookup_empty. }
  split_and!.
  - rewrite <- size_dom. unfold m. rewrite record_results_dom, dom_empty_L.
    rewrite (right_id_L ∅ (∪)). by apply size_list_to_set.
  - intros u. rewrite Hlk. case_decide; [done|]. split; [by intros [? ?] | done].
  - intros u Hu. rewrite Hlk, decide_True by done. split.
    + intros [= H]. by apply extracted_None.
    + intros Hf. f_equal. by apply extracted_None.
  - intros u Hu. rewrite Hlk, decide_True by done. apply extract_from_url_extracted.
  - intros u Hu. eexists. split; [reflexivity|].
    rewrite (record_results_lookup [u] ∅ u), decide_True by left.
    by rewrite Hlk, decide_True.
Qed.

End Extractor.

Example extract_multiple_demo :
  Extract.extract_multiple demo_parse demo_urls
  = Returned (<["https://a.example/1" := Some ("HEADLINE: Storm hits coast" +:+ nl +:+ nl +:+ "Heavy rain fell.")]>
              (<["https://b.example/2" := None]>
               (<["https://c.example/3" := None]> ∅))).
Proof.
  vm_compute. reflexivity.
Qed.

Lemma extract_multiple_isolation_witness :
  NoDup demo_urls
  ∧ ∃ m : gmap string (option string),
      Extract.extract_multiple demo_parse demo_urls = Returned m
      ∧ size m = 3
      ∧ m !! "https://b.example/2" = Some None.
Proof.
  assert (Hnd : NoDup demo_urls) by (apply (bool_decide_unpack _); vm_compute; exact I).
  split; [exact Hnd|].
  destruct (extract_multiple_isolation demo_parse demo_urls Hnd)
    as (m & Hm & Hsize & _ & Hnull & _).
  exists m. split; [exact Hm|]. split; [exact Hsize|].
  apply Hnull; [by apply (bool_decide_unpack _) | exact I].
Defined.

End ExtractFacts.

(** ** groq_client.py *)
Module GroqFacts.
Import PyStr PyStrFacts Groq.

(** One step of the outcome monad. *)
Ltac run := cbn [mbind outcome_bind mret outcome_ret try_except try_except_decode].

Lemma bind_Returned {A B} (o : outcome A) (k : A → outcome B) b :
  (x ← o; k x) = Returned b → ∃ a, o = Returned a ∧ k a = Returned b.
Proof. destruct o as [a|e]; [eauto | done]. Qed.

Lemma split_from_nonempty sep skip s : split_from sep skip s ≠ [].
Proof.
  revert skip. induction s as [|c s IH]; intros skip; [done|].
  cbn [split_from]. destruct skip as [|k]; [|apply IH].
  destruct (startswith sep (String c s)); [done|].
  by destruct (split_from sep 0 s).
Qed.

Lemma split_contains sep s :
  sep ≠ "" → contains sep s = true → 2 ≤ length (split sep s).
Proof.
  intros Hsep. unfold split. induction s as [|c s IH].
  { destruct sep; [done|]. by cbn. }
  cbn [contains split_from]. destruct (startswith sep (String c s)) eqn:E.
  - intros _. pose proof (split_from_nonempty sep (len sep - 1) s).
    destruct (split_from sep (len sep - 1) s); [done|]. simpl. lia.
  - rewrite orb_false_l. intros H. specialize (IH H).
    destruct (split_from sep 0 s); simpl in *; lia.
Qed.

Lemma py_index_lt l i : i < length l → ∃ x, py_index l i = Returned x.
Proof.
  intros H. unfold py_index. destruct (lookup_lt_is_Some_2 l i H) as [x ->]. eauto.
Qed.

(** Unwrapping a code block always yields a text. *)
Lemma extract_fenced_returns text : ∃ t, extract_fenced text = Returned t.
Proof.
  assert (Hfirst : ∀ sep inner, ∃ x, py_index (split sep inner) 0 = Returned x).
  { intros sep inner. apply py_index_lt. pose proof (split_from_nonempty sep 0 inner).
    unfold split. destruct (split_from sep 0 inner); [done | simpl; lia]. }
  unfold extract_fenced. destruct (contains "```json" text) eqn:E1.
  { destruct (py_index_lt (split "```json" text) 1) as [inner ->].
    { by apply split_contains in E1. }
    simpl. destruct (Hfirst "```" inner) as [x ->]. simpl. eauto. }
  destruct (contains "```" text) eqn:E2; [|eauto].
  destruct (py_index_lt (split "```" text) 1) as [inner ->].
  { by apply split_contains in E2. }
  simpl. destruct (Hfirst "```" inner) as [x ->]. simpl. eauto.
Qed.

Lemma clamp_range n : (0 ≤ clamp n ≤ 100)%Z.
Proof. unfold clamp. lia. Qed.

Lemma clamp_in_range n : (0 ≤ n ≤ 100)%Z → clamp n = n.
Proof. unfold clamp. lia. Qed.

Lemma parse_fallback_result_dict : result_dict parse_fallback.
Proof. eexists _, 0%Z. split; [reflexivity|]. split_and!; try done; by vm_compute; eauto. Qed.

Lemma error_response_result_dict e : result_dict (error_response e).
Proof. eexists _, 0%Z. split; [reflexivity|]. split_and!; try done; by vm_compute; eauto. Qed.

Lemma finalize_lookup_confidence fields n :
  finalize fields n !! "confidence" = Some (JInt (clamp n)).
Proof.
  unfold finalize. case_bool_decide.
  - by rewrite lookup_insert_eq.
  - rewrite lookup_insert_ne by done. by rewrite lookup_insert_eq.
Qed.

Lemma finalize_lookup_other fields n key :
  key ≠ "confidence" → key ≠ "evidence_links" →
  finalize fields n !! key = fields !! key.
Proof.
  intros H1 H2. unfold finalize. case_bool_decide.
  - by rewrite !lookup_insert_ne.
  - by rewrite !lookup_insert_ne.
Qed.

Lemma finalize_lookup_links fields n :
  is_Some (finalize fields n !! "evidence_links").
Proof.
  unfold finalize. case_bool_decide; [done|]. rewrite lookup_insert_eq. eauto.
Qed.

Section Client.
Variable json_loads : string → outcome json.
Variable int_of_str : string → option Z.
Variable error_text : builtin_op → json → string.
Variable chat_completion : string → list RelatedContent → bool → outcome string.

Local Abbreviation loads := (Groq.loads json_loads).
Local Abbreviation py_contains := (Groq.py_contains error_text).
Local Abbreviation py_getitem := (Groq.py_getitem error_text).
Local Abbreviation py_setitem := (Groq.py_setitem error_text).
Local Abbreviation py_int := (Groq.py_int int_of_str error_text).
Local Abbreviation check_required := (Groq.check_required error_text).
Local Abbreviation parse_response := (Groq.parse_response json_loads int_of_str error_text).
Local Abbreviation verify_news :=
  (Groq.verify_news json_loads int_of_str error_text chat_completion).

Lemma py_getitem_object fields key value :
  fields !! key = Some value → py_getitem (JObject fields) key = Returned value.
Proof. intros H. unfold Groq.py_getitem. by rewrite H. Qed.

Lemma py_setitem_object fields key value :
  py_setitem (JObject fields) key value = Returned (JObject (<[key := value]> fields)).
Proof. reflexivity. Qed.

Lemma py_contains_object fields key :
  py_contains key (JObject fields) = Returned (bool_decide (is_Some (fields !! key))).
Proof. reflexivity. Qed.

(** On an object the field check finds the first missing field. *)
Lemma check_required_object fields :
  check_required required_fields (JObject fields)
  = match first_missing fields with
    | Some field => Raised (Exn ValueError ("Missing required field: " +:+ field))
    | None => mret ()
    end.
Proof.
  unfold first_missing, required_fields. cbn [Groq.check_required Groq.py_contains List.find].
  simpl. repeat (case_bool_decide; simpl; [|done]). done.
Qed.

Lemma first_missing_None fields :
  first_missing fields = None ↔
  is_Some (fields !! "verdict") ∧ is_Some (fields !! "confidence")
  ∧ is_Some (fields !! "summary").
Proof.
  unfold first_missing, required_fields. cbn [List.find].
  repeat case_bool_decide; cbn [negb]; intuition (done || eauto).
Qed.

(** What the inner [try] computes on a reply that decodes to an object. *)
Lemma parse_response_object text t fields value :
  extract_fenced text = Returned t →
  json_loads t = Returned (JObject fields) →
  first_missing fields = None →
  fields !! "confidence" = Some value →
  parse_response text
  = match py_int value with
    | Returned n => Returned (JObject (finalize fields n))
    | Raised e => Raised e
    end.
Proof.
  intros Ht Hl Hm Hv. unfold Groq.parse_response, Groq.loads. rewrite Ht. run.
  rewrite Hl. run. rewrite check_required_object, Hm. run.
  rewrite (py_getitem_object _ _ _ Hv). run.
  destruct (py_int value) as [n|e]; run; [|done].
  rewrite py_setitem_object. run.
  rewrite (py_getitem_object _ _ (JInt n)) by apply lookup_insert_eq. run.
  rewrite py_setitem_object. run. rewrite py_contains_object. run.
  apply first_missing_None in Hm as ([verdict Hverdict] & _ & _).
  unfold finalize. case_bool_decide; cbn [negb]; run.
  - by rewrite (py_getitem_object _ _ verdict) by (by rewrite !lookup_insert_ne).
  - rewrite py_setitem_object. run.
    by rewrite (py_getitem_object _ _ verdict) by (by rewrite !lookup_insert_ne).
Qed.

Lemma parse_response_missing text t fields field :
  extract_fenced text = Returned t →
  json_loads t = Returned (JObject fields) →
  first_missing fields = Some field →
  parse_response text = Raised (Exn ValueError ("Missing required field: " +:+ field)).
Proof.
  intros Ht Hl Hm. unfold Groq.parse_response, Groq.loads. rewrite Ht. run.
  rewrite Hl. run. by rewrite check_required_object, Hm.
Qed.

Lemma parse_response_undecodable text t e :
  extract_fenced text = Returned t →
  json_loads t = Raised e →
  parse_response text = Raised e.
Proof.
  intros Ht Hl. unfold Groq.parse_response, Groq.loads. rewrite Ht. run. by rewrite Hl.
Qed.

(** Whenever the inner [try] returns, it returns a result dictionary. *)
Lemma parse_response_result_dict text result :
  parse_response text = Returned result → result_dict result.
Proof.
  destruct (extract_fenced_returns text) as [t Ht].
  destruct (json_loads t) as [value|e] eqn:Hl.
  2:{ by rewrite (parse_response_undecodable _ _ _ Ht Hl). }
  assert (Hobj : (∃ fields, value = JObject fields) ∨ ¬ ∃ fields, value = JObject fields).
  { destruct value; eauto; right; by intros [? ?]. }
  destruct Hobj as [[fields ->]|Hno].
  - destruct (first_missing fields) as [field|] eqn:Hm.
    { by rewrite (parse_response_missing _ _ _ _ Ht Hl Hm). }
    pose proof Hm as (Hv & [value Hc] & Hs)%first_missing_None.
    rewrite (parse_response_object _ _ _ _ Ht Hl Hm Hc).
    destruct (py_int value) as [n|e]; [|done]. intros [= <-].
    exists (finalize fields n), (clamp n). split; [done|].
    split_and!.
    + by rewrite finalize_lookup_other.
    + apply finalize_lookup_confidence.
    + apply clamp_range.
    + apply clamp_range.
    + by rewrite finalize_lookup_other.
    + apply finalize_lookup_links.
  - unfold Groq.parse_response, Groq.loads. rewrite Ht. run. rewrite Hl. run.
    intros (_ & _ & H)%bind_Returned. apply bind_Returned in H as (v & Hg & _).
    destruct value; try done. destruct Hno. eauto.
Qed.

Lemma check_required_raises fields value e :
  check_required fields value = Raised e → exn_cls e ≠ JSONDecodeError.
Proof.
  induction fields as [|field rest IH]; [done|]. cbn [Groq.check_required].
  destruct (py_contains field value) as [present|e'] eqn:E; run.
  - destruct present; cbn [negb]; [apply IH|]. by intros [= <-].
  - intros [= <-]. destruct value; cbn in E; try done; by injection E as <-.
Qed.

Lemma py_int_raises value e : py_int value = Raised e → exn_cls e ≠ JSONDecodeError.
Proof.
  destruct value as [| | |[]| | |]; try done; try (by intros [= <-]).
  simpl. destruct (int_of_str s); [done | by intros [= <-]].
Qed.

(** A reply that decodes to something else than an object makes the inner
    [try] raise, and not a decoding error. *)
Lemma parse_response_not_object text t value :
  extract_fenced text = Returned t →
  json_loads t = Returned value →
  (∀ fields, value ≠ JObject fields) →
  ∃ e, parse_response text = Raised e ∧ exn_cls e ≠ JSONDecodeError.
Proof.
  intros Ht Hl Hno. unfold Groq.parse_response, Groq.loads. rewrite Ht. run.
  rewrite Hl. run.
  destruct (check_required required_fields value) as [[]|e] eqn:Hc; run.
  - destruct value; try (eexists; split; [reflexivity | done]). by destruct (Hno fields).
  - exists e. split; [done|]. by apply check_required_raises in Hc.
Qed.

(** What [verify_news] returns on a reply that decodes to an object with the
    three required fields. *)
Lemma verify_news_object main_content related_articles is_url reply t fields value :
  chat_completion main_content related_articles is_url = Returned reply →
  extract_fenced (strip reply) = Returned t →
  json_loads t = Returned (JObject fields) →
  first_missing fields = None →
  fields !! "confidence" = Some value →
  verify_news main_content related_articles is_url
  = Returned match py_int value with
             | Returned n => JObject (finalize fields n)
             | Raised e => error_response e
             end.
Proof.
  intros Hc Ht Hl Hm Hv. unfold Groq.verify_news. rewrite Hc. run.
  rewrite (parse_response_object _ _ _ _ Ht Hl Hm Hv).
  destruct (py_int value) as [n|e] eqn:Hi; [done|].
  apply py_int_raises in Hi. by destruct e as [[] ?].
Qed.

Lemma verify_news_raised main_content related_articles is_url e :
  chat_completion main_content related_articles is_url = Raised e →
  verify_news main_content related_articles is_url = Returned (error_response e).
Proof. intros Hc. unfold Groq.verify_news. by rewrite Hc. Qed.

Lemma verify_news_result_dict main_content related_articles is_url :
  ∃ result, verify_news main_content related_articles is_url = Returned result
            ∧ result_dict result.
Proof.
  unfold Groq.verify_news.
  destruct (chat_completion main_content related_articles is_url) as [reply|e]; run.
  2:{ eexists. split; [done | apply error_response_result_dict]. }
  destruct (parse_response (strip reply)) as [result|e] eqn:Hp; run.
  { exists result. split; [done|]. by apply parse_response_result_dict in Hp. }
  destruct e as [[] msg]; run;
    (eexists; split; [done|]);
    first [apply parse_fallback_result_dict | apply error_response_result_dict].
Qed.

(** C9: whatever the arguments and whatever the model call does (a reply, a
    malformed reply, an exception of any kind), [verify_news] returns a
    dictionary holding the keys verdict, confidence, summary and
    evidence_links; it never raises. *)
Theorem verify_news_total (main_content : string)
    (related_articles : list RelatedContent) (is_url : bool) :
  ∃ fields : gmap string json,
    verify_news main_content related_articles is_url = Returned (JObject fields)
    ∧ is_Some (fields !! "verdict")
    ∧ is_Some (fields !! "confidence")
    ∧ is_Some (fields !! "summary")
    ∧ is_Some (fields !! "evidence_links").
Proof.
  destruct (verify_news_result_dict main_content related_articles is_url)
    as (result & Hr & fields & n & -> & Hv & Hc & _ & Hs & Hl).
  exists fields. rewrite Hc. eauto 10.
Qed.

(** C6, amended: when [json.loads] raises [JSONDecodeError] on the reply,
    once unwrapped from its code block, the analysis stage returns verdict
    Unverified, confidence 0 and the summary saying that parsing the response
    failed.  When [json.loads] raises another exception, the analysis stage
    returns verdict Unverified, confidence 0 and the summary of a technical
    error carrying the text of that exception; when the reply parses to an
    object lacking one of verdict, confidence, summary, the same with the
    text naming the first missing field; and when it parses to something
    else than an object, the same for some exception.  The analysis stage
    raises in none of these cases. *)
Theorem malformed_reply_fallback (main_content : string)
    (related_articles : list RelatedContent) (is_url : bool) (reply : string) :
  chat_completion main_content related_articles is_url = Returned reply →
  let technical_error text :=
    dict [("verdict", JString "Unverified");
          ("confidence", JInt 0);
          ("summary", JString ("Verification failed due to technical error: " +:+ text));
          ("evidence_links", JArray [])] in
  ∃ t, extract_fenced (strip reply) = Returned t
    ∧ (∀ e, json_loads t = Raised e → exn_cls e = JSONDecodeError →
         verify_news main_content related_articles is_url
         = Returned (dict [("verdict", JString "Unverified");
                           ("confidence", JInt 0);
                           ("summary", JString "Unable to verify: AI response parsing failed");
                           ("evidence_links", JArray [])]))
    ∧ (∀ e, json_loads t = Raised e → exn_cls e ≠ JSONDecodeError →
         verify_news main_content related_articles is_url
         = Returned (technical_error (exn_str e)))
    ∧ (∀ fields field,
         json_loads t = Returned (JObject fields) → first_missing fields = Some field →
         verify_news main_content related_articles is_url
         = Returned (technical_error ("Missing required field: " +:+ field)))
    ∧ (∀ value,
         json_loads t = Returned value → (∀ fields, value ≠ JObject fields) →
         ∃ e, verify_news main_content related_articles is_url
              = Returned (technical_error (exn_str e))).
Proof.
  intros Hc technical_error. destruct (extract_fenced_returns (strip reply)) as [t Ht].
  exists t. split; [done|]. unfold Groq.verify_news. rewrite Hc. run. split_and!.
  - intros e Hl He. rewrite (parse_response_undecodable _ _ _ Ht Hl).
    cbn [try_except_decode]. by rewrite He.
  - intros e Hl He. rewrite (parse_response_undecodable _ _ _ Ht Hl).
    by destruct e as [[] ?].
  - intros fields field Hl Hm. by rewrite (parse_response_missing _ _ _ _ Ht Hl Hm).
  - intros value Hl Hno.
    destruct (parse_response_not_object _ _ _ Ht Hl Hno) as (e & -> & He).
    exists e. by destruct e as [[] ?].
Qed.

End Client.

Example py_int_values :
  Groq.py_int Demo.int_of_str Demo.error_text (JInt (-7)) = Returned (-7)%Z
  ∧ Groq.py_int Demo.int_of_str Demo.error_text (JBool true) = Returned 1%Z
  ∧ Groq.py_int Demo.int_of_str Demo.error_text (JFloat (FFinite (301 # 2))) = Returned 150%Z
  ∧ Groq.py_int Demo.int_of_str Demo.error_text (JFloat (FFinite (-1 # 2))) = Returned 0%Z
  ∧ Groq.py_int Demo.int_of_str Demo.error_text (JString "85") = Returned 85%Z
  ∧ Groq.py_int Demo.int_of_str Demo.error_text JNull
    = Raised (Exn TypeError "int() argument must be a string, a bytes-like object or a real number, not 'NoneType'")
  ∧ Groq.py_int Demo.int_of_str Demo.error_text (JFloat FNaN)
    = Raised (Exn ValueError "cannot convert float NaN to integer").
Proof. split_and!; by vm_compute. Qed.

Example clamp_values : clamp (-7) = 0%Z ∧ clamp 150 = 100%Z ∧ clamp 42 = 42%Z.
Proof. by vm_compute. Qed.

Example parse_fallback_fields :
  match parse_fallback with
  | JObject fields =>
      fields !! "verdict" = Some (JString "Unverified")
      ∧ fields !! "confidence" = Some (JInt 0)
      ∧ fields !! "summary" = Some (JString "Unable to verify: AI response parsing failed")
  | _ => False
  end.
Proof. by vm_compute. Qed.

Example error_response_fields e :
  match error_response e with
  | JObject fields =>
      fields !! "verdict" = Some (JString "Unverified")
      ∧ fields !! "confidence" = Some (JInt 0)
      ∧ fields !! "summary"
        = Some (JString ("Verification failed due to technical error: " +:+ exn_str e))
  | _ => False
  end.
Proof. by vm_compute. Qed.

(** C6, the claim as stated, fails: the reply
    [{"verdict": "True", "confidence": 90}] parses to JSON that lacks the
    required key summary, and the analysis stage answers with the summary of
    a technical error, not with the fallback whose summary says that parsing
    failed. *)
Lemma missing_field_is_not_parse_fallback :
  Demo.chat_completion Demo.claim_partial [] false = Returned Demo.reply_without_summary
  ∧ Demo.json_loads Demo.reply_without_summary
    = Returned (dict [("verdict", JString "True"); ("confidence", JInt 90)])
  ∧ Demo.groq_verify_news Demo.claim_partial [] false
    = Returned (dict [("verdict", JString "Unverified");
                      ("confidence", JInt 0);
                      ("summary", JString "Verification failed due to technical error: Missing required field: summary");
                      ("evidence_links", JArray [])])
  ∧ Demo.groq_verify_news Demo.claim_partial [] false ≠ Returned parse_fallback.
Proof.
  split_and!; by vm_compute.
Qed.

Lemma malformed_reply_fallback_witness :
  Demo.chat_completion Demo.claim_partial [] false = Returned Demo.reply_without_summary
  ∧ Demo.groq_verify_news Demo.claim_partial [] false
    = Returned (error_response (Exn ValueError "Missing required field: summary")).
Proof.
  assert (Hc : Demo.chat_completion Demo.claim_partial [] false
               = Returned Demo.reply_without_summary) by reflexivity.
  split; [exact Hc|].
  destruct (malformed_reply_fallback Demo.json_loads Demo.int_of_str Demo.error_text
              Demo.chat_completion _ _ _ _ Hc) as (t & Ht & _ & _ & Hmissing & _).
  vm_compute in Ht. injection Ht as <-.
  exact (Hmissing _ "summary" eq_refl eq_refl).
Defined.

(** A reply the decoder gives up on with another exception than
    [JSONDecodeError], here five thousand opening brackets, is answered with
    the summary of a technical error as well. *)
Example nested_reply_is_technical_error :
  Demo.chat_completion Demo.claim_nested [] false = Returned Demo.reply_nested
  ∧ Demo.groq_verify_news Demo.claim_nested [] false
    = Returned (dict [("verdict", JString "Unverified");
                      ("confidence", JInt 0);
                      ("summary", JString "Verification failed due to technical error: maximum recursion depth exceeded while decoding a JSON array from a unicode string");
                      ("evidence_links", JArray [])]).
Proof. split; by vm_compute. Qed.

End GroqFacts.

(** ** models.py *)
Module ModelsFacts.
Import Models.

Section Validator.
Variable lower : string → string.

Local Abbreviation match_ci := (Models.match_ci lower).
Local Abbreviation validate_verdict := (Models.validate_verdict lower).

Lemma match_ci_Some v cs a : match_ci v cs = Some a → a ∈ cs ∧ lower v = lower a.
Proof.
  induction cs as [|c cs IH]; simpl; [done|].
  destruct (String.eqb (lower v) (lower c)) eqn:E.
  - intros [= <-]. apply String.eqb_eq in E. split; [left | done].
  - intros H. destruct (IH H) as [? ?]. split; [by right | done].
Qed.

Lemma match_ci_None v cs : match_ci v cs = None → ∀ a, a ∈ cs → lower v ≠ lower a.
Proof.
  induction cs as [|c cs IH]; simpl; intros H a Ha.
  - by apply elem_of_nil in Ha.
  - destruct (String.eqb (lower v) (lower c)) eqn:E; [done|].
    apply String.eqb_neq in E.
    apply elem_of_cons in Ha as [-> | Ha]; [done | by apply IH].
Qed.

Lemma validate_verdict_allowed v : validate_verdict v ∈ allowed.
Proof.
  unfold Models.validate_verdict. case_bool_decide as Hv; cbn [negb]; [done|].
  destruct (match_ci v allowed) as [a|] eqn:E.
  - by apply match_ci_Some in E as [? _].
  - unfold allowed. set_solver.
Qed.

Lemma NoDup_fmap_eq {A B} (f : A → B) (l : list A) x y :
  NoDup (f <$> l) → x ∈ l → y ∈ l → f x = f y → x = y.
Proof.
  induction l as [|z l IH]; [by intros _ ?%elem_of_nil|].
  rewrite fmap_cons, NoDup_cons. intros [Hz Hl] Hx Hy Hf.
  apply elem_of_cons in Hx as [->|Hx]; apply elem_of_cons in Hy as [->|Hy]; try done.
  - exfalso. apply Hz. rewrite Hf. by apply list_elem_of_fmap_2.
  - exfalso. apply Hz. rewrite <- Hf. by apply list_elem_of_fmap_2.
  - by apply IH.
Qed.

(** C3: for every verdict string the validated verdict is one of True, False,
    Misleading, Unverified; an exact match is kept, otherwise a string that
    equals an allowed verdict up to case becomes that verdict in its canonical
    spelling, otherwise the verdict is Unverified.  The validator is a total
    function: no string makes it fail.  ([lower] is any lower-casing that
    keeps the four verdicts apart, as [str.lower] does.) *)
Theorem validate_verdict_spec (v : string) :
  NoDup (lower <$> allowed) →
  validate_verdict v ∈ allowed
  ∧ (v ∈ allowed → validate_verdict v = v)
  ∧ (∀ a, v ∉ allowed → a ∈ allowed → lower v = lower a → validate_verdict v = a)
  ∧ (v ∉ allowed → (∀ a, a ∈ allowed → lower v ≠ lower a) →
     validate_verdict v = "Unverified").
Proof.
  intros Hnd. split; [apply validate_verdict_allowed|].
  unfold Models.validate_verdict. repeat split.
  - intros Hv. by rewrite bool_decide_eq_true_2.
  - intros a Hv Ha Hl. rewrite bool_decide_eq_false_2 by done. cbn [negb].
    destruct (match_ci v allowed) as [a'|] eqn:E.
    + apply match_ci_Some in E as [Ha' Hl'].
      apply (NoDup_fmap_eq lower allowed); [done..|congruence].
    + by destruct (match_ci_None _ _ E a Ha).
  - intros Hv Hno. rewrite bool_decide_eq_false_2 by done. cbn [negb].
    destruct (match_ci v allowed) as [a'|] eqn:E; [|done].
    apply match_ci_Some in E as [Ha' Hl']. by destruct (Hno a' Ha').
Qed.

End Validator.

Example validate_verdict_lowercase : Models.validate_verdict ascii_lower "true" = "True".
Proof. reflexivity. Qed.

Example validate_verdict_unknown : Models.validate_verdict ascii_lower "Probably" = "Unverified".
Proof. reflexivity. Qed.

Lemma validate_verdict_spec_witness :
  NoDup (ascii_lower <$> allowed)
  ∧ Models.validate_verdict ascii_lower "MISLEADING" ∈ allowed
  ∧ ("MISLEADING" ∈ allowed →
     Models.validate_verdict ascii_lower "MISLEADING" = "MISLEADING")
  ∧ (∀ a, "MISLEADING" ∉ allowed → a ∈ allowed →
     ascii_lower "MISLEADING" = ascii_lower a →
     Models.validate_verdict ascii_lower "MISLEADING" = a)
  ∧ ("MISLEADING" ∉ allowed →
     (∀ a, a ∈ allowed → ascii_lower "MISLEADING" ≠ ascii_lower a) →
     Models.validate_verdict ascii_lower "MISLEADING" = "Unverified").
Proof.
  assert (Hnd : NoDup (ascii_lower <$> allowed)) by (apply (bool_decide_unpack _); vm_compute; exact I).
  split; [exact Hnd|]. exact (validate_verdict_spec ascii_lower "MISLEADING" Hnd).
Defined.

End ModelsFacts.

(** ** main.py *)
Module MainFacts.
Import PyStr PyStrFacts Models ModelsFacts NewsSearch NewsSearchFacts Groq GroqFacts Main.

Lemma validate_verdict_unverified lower :
  validate_verdict lower "Unverified" = "Unverified".
Proof. unfold validate_verdict. by rewrite bool_decide_eq_true_2 by (vm_compute; set_solver). Qed.

Section Handler.
Variable extract_from_url : string → outcome (option string).
Variable search_related_news : string → nat → outcome (list Article).
Variable groq_verify_news : string → list RelatedContent → bool → outcome json.
Variable urlparse : string → outcome ParseResult.
Variable lower : string → string.
Variable error_text : builtin_op → json → string.
Variable coerce_str : json → outcome string.
Variable coerce_int : json → outcome Z.
Variable validation_error : string → exn.

Local Abbreviation resolve_content := (Main.resolve_content extract_from_url urlparse).
Local Abbreviation search_stage := (Main.search_stage search_related_news lower).
Local Abbreviation collect_step := (Main.collect_step extract_from_url).
Local Abbreviation collect_evidence := (Main.collect_evidence extract_from_url).
Local Abbreviation extracts := (Main.extracts extract_from_url).
Local Abbreviation str_field := (Main.str_field coerce_str).
Local Abbreviation str_list := (Main.str_list coerce_str).
Local Abbreviation build_response :=
  (Main.build_response lower error_text coerce_str coerce_int validation_error).
Local Abbreviation analysis_stage :=
  (Main.analysis_stage groq_verify_news lower error_text coerce_str coerce_int
     validation_error).
Local Abbreviation steps_1_to_3 :=
  (Main.steps_1_to_3 extract_from_url search_related_news urlparse lower).
Local Abbreviation verify_news_with :=
  (Main.verify_news_with extract_from_url search_related_news groq_verify_news
     urlparse lower error_text coerce_str coerce_int validation_error).

(** *** Step 3 *)

Lemma collect_step_aligned acc article :
  rc_url <$> acc.1 = acc.2 →
  rc_url <$> (collect_step acc article).1 = (collect_step acc article).2.
Proof.
  intros H. unfold Main.collect_step.
  destruct (extract_from_url (url article)) as [[text|]|e]; try done.
  destruct (nonempty_text text); [|done]. simpl. by rewrite fmap_app, H.
Qed.

Lemma collect_step_links acc article :
  (collect_step acc article).2
  = acc.2 ++ (if extracts (url article) then [url article] else []).
Proof.
  unfold Main.collect_step, Main.extracts.
  destruct (extract_from_url (url article)) as [[text|]|e]; simpl;
    try by rewrite app_nil_r.
  destruct (nonempty_text text); simpl; [done | by rewrite app_nil_r].
Qed.

Lemma foldl_collect_aligned articles acc :
  rc_url <$> acc.1 = acc.2 →
  rc_url <$> (foldl collect_step acc articles).1 = (foldl collect_step acc articles).2.
Proof.
  revert acc. induction articles as [|article articles IH]; intros acc H; [done|].
  simpl. apply IH. by apply collect_step_aligned.
Qed.

Lemma foldl_collect_links articles acc :
  (foldl collect_step acc articles).2
  = acc.2 ++ List.filter extracts (url <$> articles).
Proof.
  revert acc. induction articles as [|article articles IH]; intros acc.
  { simpl. by rewrite app_nil_r. }
  cbn [foldl fmap list_fmap List.filter]. rewrite IH, collect_step_links.
  rewrite <- app_assoc. by destruct (extracts (url article)).
Qed.

Lemma collect_evidence_links articles :
  (collect_evidence articles).2 = List.filter extracts (url <$> articles).
Proof. unfold Main.collect_evidence. by rewrite foldl_collect_links. Qed.

(** C10: in the evidence loop the evidence links and the related contents
    stay aligned: the links are the url fields of the related contents, in
    the same order, so at every index the link is the url of the entry. *)
Theorem evidence_links_aligned (related_articles : list Article) :
  let collected := collect_evidence related_articles in
  rc_url <$> collected.1 = collected.2
  ∧ length collected.1 = length collected.2
  ∧ ∀ i, rc_url <$> (collected.1 !! i) = collected.2 !! i.
Proof.
  intros collected.
  assert (H : rc_url <$> collected.1 = collected.2)
    by (by apply foldl_collect_aligned).
  split; [done|]. split.
  - by rewrite <- H, length_fmap.
  - intros i. by rewrite <- H, list_lookup_fmap.
Qed.

(** *** Step 4 *)

Lemma str_list_strings l : str_list (JString <$> l) = Returned l.
Proof.
  induction l as [|x l IH]; [done|].
  cbn [fmap list_fmap Main.str_list Main.str_field]. run.
  change (list_fmap _ _ JString l) with (JString <$> l). by rewrite IH.
Qed.

(** What a response built from a dictionary satisfies. *)
Lemma build_response_facts fields response :
  build_response (JObject fields) = Returned response →
  (0 ≤ confidence response ≤ 100)%Z
  ∧ verdict response ∈ allowed
  ∧ ∀ links, fields !! "evidence_links" = Some (JArray (JString <$> links)) →
             evidence_links response = links.
Proof.
  unfold Main.build_response.
  destruct (fields !! "verdict") as [v|]; [|done].
  destruct (fields !! "confidence") as [c|]; [|done].
  destruct (fields !! "summary") as [sm|]; [|done].
  intros (vd & _ & H)%bind_Returned.
  apply bind_Returned in H as (n & _ & H).
  apply bind_Returned in H as (sm' & _ & H).
  apply bind_Returned in H as (ls & Hls & H).
  destruct ((0 <=? n)%Z && (n <=? 100)%Z) eqn:Hr; [|done].
  injection H as <-. cbn. split_and!.
  - apply andb_true_iff in Hr as [?%Z.leb_le _]. done.
  - apply andb_true_iff in Hr as [_ ?%Z.leb_le]. done.
  - apply validate_verdict_allowed.
  - intros links Hl. rewrite Hl, str_list_strings in Hls. by injection Hls.
Qed.

(** The response built from a dictionary with a string verdict, an integer
    confidence in range and a string summary. *)
Lemma build_response_dict fields vd n sm links :
  fields !! "verdict" = Some (JString vd) →
  fields !! "confidence" = Some (JInt n) → (0 ≤ n ≤ 100)%Z →
  fields !! "summary" = Some (JString sm) →
  fields !! "evidence_links" = Some (JArray (JString <$> links)) →
  build_response (JObject fields)
  = Returned {| verdict := validate_verdict lower vd; confidence := n;
                summary := sm; evidence_links := links |}.
Proof.
  intros Hv Hc Hn Hs Hl. unfold Main.build_response. rewrite Hv, Hc, Hs, Hl.
  cbn [Main.str_field Main.int_field]. run. rewrite str_list_strings. run.
  destruct (Z.leb_spec 0 n); [|lia]. destruct (Z.leb_spec n 100); [|lia]. done.
Qed.

Lemma analysis_stage_Ok main_content related_contents links is_url response :
  analysis_stage main_content related_contents links is_url = Ok response →
  (0 ≤ confidence response ≤ 100)%Z
  ∧ verdict response ∈ allowed
  ∧ evidence_links response = firstn 5 links.
Proof.
  unfold Main.analysis_stage.
  destruct (groq_verify_news _ _ _) as [analysis|e]; run; [|done].
  destruct analysis; try done. rewrite py_setitem_object. run.
  destruct (Groq.py_getitem _ _ _) as [v|e]; run; [|done].
  destruct (build_response _) as [r|e] eqn:Hb; [|done]. intros [= <-].
  apply build_response_facts in Hb as (Hr & Hv & Hl).
  split; [done|]. split; [done|]. apply Hl. by rewrite lookup_insert_eq.
Qed.

Lemma analysis_stage_dict main_content related_contents links is_url fields vd n sm :
  groq_verify_news main_content related_contents is_url = Returned (JObject fields) →
  fields !! "verdict" = Some (JString vd) →
  fields !! "confidence" = Some (JInt n) → (0 ≤ n ≤ 100)%Z →
  fields !! "summary" = Some (JString sm) →
  analysis_stage main_content related_contents links is_url
  = Ok {| verdict := validate_verdict lower vd; confidence := n;
          summary := sm; evidence_links := firstn 5 links |}.
Proof.
  intros Hg Hv Hc Hn Hs. unfold Main.analysis_stage. rewrite Hg. run.
  rewrite py_setitem_object. run.
  rewrite (py_getitem_object _ _ _ (JString vd)) by (by rewrite lookup_insert_ne). run.
  rewrite (build_response_dict _ vd n sm (firstn 5 links)); try done;
    first [by rewrite lookup_insert_eq | by rewrite lookup_insert_ne].
Qed.

(** *** The handler *)

(** The evidence links of a response of the handler, over any three
    services: the response comes from the early return of step 2, taken when
    the search raises, or from the analysis, and then carries the first 5 of
    the URLs of the related articles the loop of step 3 kept. *)
Lemma handler_evidence_links (content : string) (response : VerifyResponse) :
  verify_news_with content = Ok response →
  length (evidence_links response) ≤ 5
  ∧ ((∃ main_content e,
        resolve_content content true = Returned (main_content, true)
        ∧ search_related_news content 10 = Raised e
        ∧ response = {| verdict := "Unverified"; confidence := 0;
                        summary := early_summary e; evidence_links := [content] |})
     ∨ (∃ query related_articles,
          (search_related_news query 10 = Returned related_articles
           ∨ (∃ e, search_related_news query 10 = Raised e) ∧ related_articles = [])
          ∧ evidence_links response
            = firstn 5 (List.filter extracts (url <$> related_articles)))).
Proof.
  unfold Main.verify_news_with, Main.steps_1_to_3.
  set (is_url := startswith_any _ content).
  destruct (resolve_content content is_url) as [[main_content failed]|e] eqn:Hres;
    run; [|done].
  unfold Main.search_stage. cbn [fst snd].
  set (query := if negb failed then _ else _).
  destruct (search_related_news query 10) as [related_articles|e] eqn:Hsearch.
  - run. intros (_ & _ & Hl)%analysis_stage_Ok. rewrite Hl. split.
    { rewrite length_take. lia. }
    right. exists query, related_articles. split; [by left|].
    by rewrite collect_evidence_links.
  - destruct (failed && is_url) eqn:Hfu; run.
    + intros [= <-]. split; [simpl; lia|]. left.
      apply andb_true_iff in Hfu as [-> Hu]. rewrite Hu in Hres.
      exists main_content, e. split; [done|]. split; [done|].
      by rewrite validate_verdict_unverified.
    + intros (_ & _ & Hl)%analysis_stage_Ok. rewrite Hl. split.
      { rewrite length_take. lia. }
      right. exists query, []. split; [right; eauto | done].
Qed.

Lemma verify_news_with_range content response :
  verify_news_with content = Ok response →
  (0 ≤ confidence response ≤ 100)%Z ∧ verdict response ∈ allowed.
Proof.
  unfold Main.verify_news_with.
  destruct (steps_1_to_3 content) as [[early|[[mc rcs] links]]|e] eqn:Hsteps; [| |done].
  - intros [= <-]. unfold Main.steps_1_to_3 in Hsteps.
    apply bind_Returned in Hsteps as ([mc failed] & _ & Hsteps).
    unfold Main.search_stage in Hsteps.
    destruct (search_related_news _ _); [done|].
    destruct (_ && _); [|done]. injection Hsteps as <-. cbn.
    split; [lia | apply validate_verdict_allowed].
  - by intros (? & ? & _)%analysis_stage_Ok.
Qed.

(** *** Step 1 *)

(** Step 1 on a URL that [urlparse] accepts: when the extraction returns
    nothing or a text of at most 50 characters the flag is set and the
    content becomes "News article from <host> - <path>" with every / of the
    path replaced by a space; when the extraction call raises the flag is
    set and the content becomes "News from <host>". *)
Lemma resolve_content_fallback (content : string) (parsed : ParseResult) :
  urlparse content = Returned parsed →
  (∀ extracted, extract_from_url content = Returned extracted →
     (∀ text, extracted = Some text → text = "" ∨ len text ≤ 50) →
     resolve_content content true
     = Returned ("News article from " +:+ netloc parsed +:+ " - "
                 +:+ replace_char "/" " " (path parsed), true))
  ∧ (∀ e, extract_from_url content = Raised e →
     resolve_content content true = Returned ("News from " +:+ netloc parsed, true)).
Proof.
  intros Hp. unfold Main.resolve_content. split.
  - intros extracted -> Hshort. cbn [mbind outcome_bind try_except].
    destruct extracted as [text|]; [|by rewrite Hp].
    destruct (Hshort text eq_refl) as [->|Hlen]; [by rewrite Hp|].
    apply Nat.ltb_ge in Hlen. rewrite Hlen, andb_false_r. by rewrite Hp.
  - intros e ->. cbn [mbind outcome_bind try_except]. by rewrite Hp.
Qed.

(** Step 2 after a failed extraction does not read the content step 1 has
    substituted: the search runs on the submitted content. *)
Lemma search_stage_ignores_substitute content main_content main_content' is_url :
  search_stage content main_content is_url true
  = search_stage content main_content' is_url true.
Proof. reflexivity. Qed.

End Handler.

(** C7: the submitted URL [https://news.example.com/story-1] leads to a page
    without text.  Step 1 sets the flag and substitutes the text made of the
    host and the path, but step 2 hands the submitted URL to the search, not
    that text: query preparation drops the URL, its only token, and the
    search client is asked for the empty query, where the substituted text
    would have asked for "News article from news.example.com - story-1".
    The search used here answers with one result whose title is the query it
    received. *)
Theorem degraded_search_uses_submitted_url :
  let synthetic := "News article from news.example.com -  story-1" in
  let found query :=
    [{| title := query; url := "https://a.example/1"; source := "Example News";
        snippet := ""; published_date := "" |}] in
  Main.article_extractor Demo.demo_parse true Demo.story_url = Returned None
  ∧ Main.resolve_content (Main.article_extractor Demo.demo_parse true) Demo.urlparse
      Demo.story_url true
    = Returned (synthetic, true)
  ∧ _prepare_search_query Demo.story_url = ""
  ∧ Main.search_stage (Main.news_searcher Demo.echo_search true) ascii_lower
      Demo.story_url synthetic true true
    = inr (found "")
  ∧ Main.news_searcher Demo.echo_search true synthetic 10
    = Returned (found "News article from news.example.com - story-1")
  ∧ Main.analysis_inputs Demo.demo_parse Demo.echo_search Demo.urlparse ascii_lower
      true Demo.story_url
    = Returned (inr (synthetic,
                     [{| rc_title := ""; rc_source := "Example News";
                         rc_url := "https://a.example/1";
                         rc_text := rc_text Demo.storm_content |}],
                     ["https://a.example/1"])).
Proof. split_and!; by vm_compute. Qed.

(** When the extraction call itself raises, step 1 substitutes
    "News from <host>". *)
Example resolve_content_raise_example :
  Demo.urlparse Demo.story_url
  = Returned {| netloc := "news.example.com"; path := "/story-1" |}
  ∧ Main.resolve_content Demo.raising_extractor Demo.urlparse Demo.story_url true
    = Returned ("News from news.example.com", true).
Proof. split; by vm_compute. Qed.

(** A URL with an unpaired bracket in its host: [urlparse] raises in the
    branch that handles the failed extraction and again in the handler of
    that failure, and the request ends in a 500. *)
Example unparsable_url_is_500 :
  Demo.verify_news true "http://[bad-host/path"
  = HTTPException 500 "Verification process failed: Invalid IPv6 URL".
Proof. by vm_compute. Qed.

Example resolve_content_short_text :
  Main.resolve_content Demo.failing_extractor Demo.urlparse Demo.story_url true
  = Returned ("News article from news.example.com -  story-1", true).
Proof. by vm_compute. Qed.

(** *** The application *)

Section App.
Variable article_parse : string → outcome Extract.ParsedArticle.
Variable google_search : string → nat → outcome SerpResults.
Variable chat_completion : string → list RelatedContent → bool → outcome string.
Variable json_loads : string → outcome json.
Variable int_of_str : string → option Z.
Variable urlparse : string → outcome ParseResult.
Variable lower : string → string.
Variable error_text : builtin_op → json → string.
Variable coerce_str : json → outcome string.
Variable coerce_int : json → outcome Z.
Variable validation_error : string → exn.

Local Abbreviation article_extractor := (Main.article_extractor article_parse).
Local Abbreviation news_searcher := (Main.news_searcher google_search).
Local Abbreviation groq_client :=
  (Main.groq_client chat_completion json_loads int_of_str error_text).
Local Abbreviation analysis_inputs :=
  (Main.analysis_inputs article_parse google_search urlparse lower).
Local Abbreviation verify_news :=
  (Main.verify_news article_parse google_search chat_completion json_loads int_of_str
     urlparse lower error_text coerce_str coerce_int validation_error).
Local Abbreviation py_int := (Groq.py_int int_of_str error_text).

(** With the services initialized and a URL that [urlparse] accepts, steps 1
    to 3 always reach the analysis: the extractor and the searcher absorb
    their own failures. *)
Lemma analysis_inputs_reached content :
  (startswith_any ["http://"; "https://"] content = true →
   ∃ parsed, urlparse content = Returned parsed) →
  ∃ main_content related_contents links,
    analysis_inputs true content = Returned (inr (main_content, related_contents, links)).
Proof.
  intros Hp. unfold Main.analysis_inputs, Main.steps_1_to_3.
  set (is_url := startswith_any _ content) in *.
  assert (Hres : ∃ resolved,
    Main.resolve_content (article_extractor true) urlparse content is_url
    = Returned resolved).
  { unfold Main.resolve_content. destruct is_url; [|eauto].
    destruct (Hp eq_refl) as [parsed Hparsed].
    unfold Main.article_extractor, service_call.
    rewrite ExtractFacts.extract_from_url_extracted. run.
    destruct (Extract.extracted article_parse content) as [text|].
    - destruct (_ && _); run; [eauto|]. rewrite Hparsed. run. eauto.
    - rewrite Hparsed. run. eauto. }
  destruct Hres as [resolved ->]. run. unfold Main.search_stage.
  unfold Main.news_searcher at 1, service_call.
  destruct (search_related_news_returns google_search
              (if negb resolved.2 then take 500 resolved.1 else content) 10)
    as [articles ->].
  eauto.
Qed.

Lemma error_response_lookups e :
  ∃ fields, error_response e = JObject fields
    ∧ fields !! "verdict" = Some (JString "Unverified")
    ∧ fields !! "confidence" = Some (JInt 0)
    ∧ fields !! "summary"
      = Some (JString ("Verification failed due to technical error: " +:+ exn_str e)).
Proof. eexists. split; [reflexivity|]. split_and!; by vm_compute. Qed.

(** The response when the analysis hands back its error response. *)
Lemma verify_news_error_response content main_content related_contents links e :
  analysis_inputs true content = Returned (inr (main_content, related_contents, links)) →
  Groq.verify_news json_loads int_of_str error_text chat_completion
    main_content related_contents (startswith_any ["http://"; "https://"] content)
  = Returned (error_response e) →
  verify_news true content
  = Ok {| verdict := "Unverified"; confidence := 0;
          summary := "Verification failed due to technical error: " +:+ exn_str e;
          evidence_links := firstn 5 links |}.
Proof.
  intros Hin Hg. unfold Main.verify_news, Main.verify_news_with.
  unfold Main.analysis_inputs in Hin. rewrite Hin.
  destruct (error_response_lookups e) as (fields & Hf & Hv & Hc & Hs).
  rewrite Hf in Hg.
  erewrite analysis_stage_dict; [|exact Hg|exact Hv|exact Hc|lia|exact Hs].
  by rewrite validate_verdict_unverified.
Qed.


Lemma verify_news_fallback_response content main_content related_contents links :
  analysis_inputs true content = Returned (inr (main_content, related_contents, links)) →
  Groq.verify_news json_loads int_of_str error_text chat_completion
    main_content related_contents (startswith_any ["http://"; "https://"] content)
  = Returned parse_fallback →
  verify_news true content
  = Ok {| verdict := "Unverified"; confidence := 0;
          summary := "Unable to verify: AI response parsing failed";
          evidence_links := firstn 5 links |}.
Proof.
  intros Hin Hg. unfold Main.verify_news, Main.verify_news_with.
  unfold Main.analysis_inputs in Hin. rewrite Hin.
  erewrite analysis_stage_dict; [|exact Hg|by vm_compute|by vm_compute|lia|by vm_compute].
  by rewrite validate_verdict_unverified.
Qed.


(** With the services initialized, steps 1 to 3 never end in the early
    return: the searcher absorbs its own failures. *)
Lemma no_early_return content early :
  analysis_inputs true content ≠ Returned (inl early).
Proof.
  unfold Main.analysis_inputs, Main.steps_1_to_3.
  destruct (Main.resolve_content _ _ _ _) as [resolved|e]; run; [|done].
  unfold Main.search_stage, Main.news_searcher at 1, service_call.
  destruct (search_related_news_returns google_search
              (if negb resolved.2 then take 500 resolved.1 else content) 10)
    as [articles ->].
  done.
Qed.

Lemma article_extractor_extracts url :
  Main.extracts (article_extractor true) url = true →
  ∃ text, Extract.extract_from_url article_parse url = Returned (Some text) ∧ text ≠ "".
Proof.
  unfold Main.extracts, Main.article_extractor, service_call.
  destruct (Extract.extract_from_url article_parse url) as [[text|]|e]; try done.
  intros H. exists text. split; [done|]. by intros ->.
Qed.

(** C4: every response of POST /verify has at most 5 evidence links, and
    they are the first 5, in the order of the search result, of the URLs of
    the related articles whose extraction returned a text that is not
    empty: every link is the URL of an article the search found, and its
    extraction succeeded. *)
Theorem evidence_links_spec (content : string) (response : VerifyResponse) :
  verify_news true content = Ok response →
  ∃ query related_articles,
    NewsSearch.search_related_news google_search query 10 = Returned related_articles
    ∧ evidence_links response
      = firstn 5 (List.filter (Main.extracts (article_extractor true))
                    (url <$> related_articles))
    ∧ length (evidence_links response) ≤ 5
    ∧ ∀ link, link ∈ evidence_links response →
        link ∈ url <$> related_articles
        ∧ ∃ text, Extract.extract_from_url article_parse link = Returned (Some text)
                  ∧ text ≠ "".
Proof.
  intros H. unfold Main.verify_news in H.
  apply handler_evidence_links in H
    as [Hlen [(mc & e & _ & Hs & _)|(query & arts & Hs & Hl)]].
  { unfold Main.news_searcher, service_call in Hs.
    destruct (search_related_news_returns google_search content 10) as [a Ha].
    congruence. }
  unfold Main.news_searcher, service_call in Hs.
  destruct Hs as [Hs | [[e Hs] _]].
  2:{ destruct (search_related_news_returns google_search query 10) as [a Ha].
      congruence. }
  exists query, arts. split; [done|]. split; [done|]. split; [done|].
  intros link Hin. rewrite Hl in Hin. apply subseteq_take in Hin.
  apply list_elem_of_In, filter_In in Hin as [Hin Hex].
  split; [by apply list_elem_of_In|]. by apply article_extractor_extracts.
Qed.

End App.



Example fenced_reply_scenario :
  Demo.verify_news true Demo.claim_fenced
  = Ok {| verdict := "True"; confidence := 100; summary := "x";
          evidence_links := ["https://a.example/1"] |}.
Proof. by vm_compute. Qed.


(** The early return of step 2, with the submitted URL as its evidence
    link, needs a search that raises: the handler takes it over an extractor
    that returns nothing and a searcher that raises, and with the service
    handles still [None]. *)
Example early_return_of_the_handler :
  Demo.verify_news false Demo.story_url
  = Ok {| verdict := "Unverified"; confidence := 0;
          summary := early_summary (none_has_no_attribute "search_related_news");
          evidence_links := [Demo.story_url] |}
  ∧ Main.verify_news_with Demo.failing_extractor Demo.failing_searcher
      Demo.groq_verify_news Demo.urlparse ascii_lower Demo.error_text
      Demo.coerce_str Demo.coerce_int Demo.validation_error Demo.story_url
    = Ok {| verdict := "Unverified"; confidence := 0;
            summary := early_summary (Exn OtherError "Search unavailable.");
            evidence_links := [Demo.story_url] |}.
Proof. split; by vm_compute. Qed.

Lemma evidence_links_spec_witness :
  ∃ query related_articles,
    NewsSearch.search_related_news Demo.google_search query 10 = Returned related_articles
    ∧ ["https://a.example/1"]
      = firstn 5 (List.filter (Main.extracts (Main.article_extractor Demo.demo_parse true))
                    (url <$> related_articles)).
Proof.
  destruct (evidence_links_spec Demo.demo_parse Demo.google_search Demo.chat_completion
              Demo.json_loads Demo.int_of_str Demo.urlparse ascii_lower Demo.error_text
              Demo.coerce_str Demo.coerce_int Demo.validation_error Demo.claim_fenced
              {| verdict := "True"; confidence := 100; summary := "x";
                 evidence_links := ["https://a.example/1"] |}
              ltac:(vm_compute; reflexivity))
    as (query & related_articles & Hs & Hl & _).
  exists query, related_articles. split; [exact Hs | exact Hl].
Defined.

End MainFacts.


(** ** The two ends of a string *)
Module EndsFacts.
Import PyStr PyStrFacts Ends.

Lemma last_char_cons c s :
  last_char (String c s) = match s with "" => Some c | _ => last_char s end.
Proof. by destruct s. Qed.

Lemma last_char_app s t : t ≠ "" → last_char (s +:+ t) = last_char t.
Proof.
  intros Ht. induction s as [|c s IH]; [done|].
  rewrite app_cons, last_char_cons. destruct (s +:+ t) eqn:E; [|done].
  destruct s; [by destruct t | done].
Qed.

Lemma last_char_None s : last_char s = None → s = "".
Proof.
  induction s as [|c s IH]; [done|]. rewrite last_char_cons.
  destruct s; [done|]. intros H. by specialize (IH H).
Qed.

Lemma lstrip_first s c : first_char (lstrip s) = Some c → isspace c = false.
Proof.
  induction s as [|d s IH]; [done|]. cbn [lstrip].
  destruct (isspace d) eqn:E; [done|]. by intros [= <-].
Qed.

Lemma lstrip_id s : (∀ c, first_char s = Some c → isspace c = false) → lstrip s = s.
Proof. destruct s as [|c s]; [done|]. intros H. cbn [lstrip]. by rewrite (H c). Qed.

Lemma rstrip_cons c s :
  rstrip (String c s)
  = match rstrip s with
    | "" => if isspace c then "" else String c ""
    | r => String c r
    end.
Proof. reflexivity. Qed.

Lemma rstrip_last s c : last_char (rstrip s) = Some c → isspace c = false.
Proof.
  induction s as [|d s IH]; [done|]. rewrite rstrip_cons.
  destruct (rstrip s) as [|e r] eqn:E.
  - destruct (isspace d) eqn:Hd; [done|]. by intros [= <-].
  - rewrite last_char_cons. apply IH.
Qed.

Lemma rstrip_first s c : first_char (rstrip s) = Some c → first_char s = Some c.
Proof.
  destruct s as [|d s]; [done|]. rewrite rstrip_cons.
  destruct (rstrip s); [by destruct (isspace d)|done].
Qed.

Lemma rstrip_id s : (∀ c, last_char s = Some c → isspace c = false) → rstrip s = s.
Proof.
  induction s as [|d s IH]; [done|]. rewrite last_char_cons, rstrip_cons.
  destruct s as [|e s'].
  - intros H. by rewrite (H d).
  - intros H. rewrite IH by done. done.
Qed.

Lemma strip_trimmed s : trimmed (strip s).
Proof.
  unfold strip. split.
  - intros c H. apply rstrip_first in H. by apply lstrip_first in H.
  - apply rstrip_last.
Qed.

Lemma strip_id s : trimmed s → strip s = s.
Proof. intros [Hf Hl]. unfold strip. rewrite lstrip_id by done. by apply rstrip_id. Qed.

Lemma strip_idempotent s : strip (strip s) = strip s.
Proof. apply strip_id, strip_trimmed. Qed.

Lemma spaceless_last w c : spaceless w = true → last_char w = Some c → isspace c = false.
Proof.
  induction w as [|d w IH]; [done|]. cbn [spaceless]. rewrite last_char_cons.
  intros [Hd Hw]%andb_true_iff. destruct w.
  - intros [= <-]. by apply negb_true_iff.
  - by apply IH.
Qed.

Lemma word_trimmed w : spaceless w = true → trimmed w.
Proof.
  intros Hw. split.
  - destruct w as [|d w]; [done|]. intros c [= <-]. cbn [spaceless] in Hw.
    apply andb_true_iff in Hw as [Hd _]. by apply negb_true_iff.
  - intros c. by apply spaceless_last.
Qed.

Lemma first_char_app s t : s ≠ "" → first_char (s +:+ t) = first_char s.
Proof. by destruct s. Qed.

(** A space-joined list of words has no space character at either end. *)
Lemma join_words_trimmed ws : Forall is_word ws → trimmed (join " " ws).
Proof.
  induction 1 as [|w ws [Hne Hw] Hws IH]; [done|].
  destruct ws as [|w' ws]; [by apply word_trimmed|].
  rewrite join_cons2. split.
  - rewrite first_char_app by done. by apply word_trimmed.
  - intros c. rewrite last_char_app by done. rewrite last_char_app.
    + apply IH.
    + inversion Hws as [|? ? [Hne' _] _]; subst. destruct ws; [done|].
      rewrite join_cons2. by destruct w'.
Qed.

(** What is stripped off the right end is kept when a prefix ends in a
    character that is no space. *)
Lemma rstrip_prefix p s :
  (∃ c, last_char p = Some c ∧ isspace c = false) →
  ∃ r, rstrip (p +:+ s) = p +:+ r.
Proof.
  induction p as [|d p IH]; [by intros (? & ? & _)|].
  rewrite last_char_cons. intros (c & Hc & Hs). rewrite app_cons, rstrip_cons.
  destruct p as [|e p'].
  - injection Hc as ->. change ("" +:+ s) with s. rewrite Hs.
    destruct (rstrip s); [by exists "" | eauto].
  - destruct IH as [r Hr]; [eauto|]. rewrite Hr. rewrite app_cons. eauto.
Qed.

Lemma rstrip_blank s : blank s = true → rstrip s = "".
Proof.
  induction s as [|c s IH]; [done|]. cbn [blank]. intros [Hc Hs]%andb_true_iff.
  by rewrite rstrip_cons, IH, Hc.
Qed.

(** Blank text after a prefix that ends in a character that is no space is
    stripped whole. *)
Lemma rstrip_app_blank p s :
  (∃ c, last_char p = Some c ∧ isspace c = false) → blank s = true →
  rstrip (p +:+ s) = p.
Proof.
  intros Hp Hs. induction p as [|d p IH]; [by destruct Hp as (? & ? & _)|].
  destruct Hp as (c & Hc & Hsp). rewrite last_char_cons in Hc.
  rewrite app_cons, rstrip_cons. destruct p as [|e p'].
  - injection Hc as ->. change ("" +:+ s) with s. by rewrite rstrip_blank, Hsp.
  - rewrite IH by eauto. done.
Qed.

End EndsFacts.

(** ** news_search.py, continued *)
Module NewsSearchMore.
Import PyStr PyStrFacts Ends EndsFacts NewsSearch NewsSearchFacts.

Lemma filter_no_url ws :
  Forall (λ w, startswith_any url_prefixes w = false) ws →
  filter (λ word, ¬ startswith_any url_prefixes word) ws = ws.
Proof.
  induction 1 as [|w ws Hw Hws IH]; [done|].
  rewrite filter_cons_True by (rewrite Hw; intros []). by rewrite IH.
Qed.

(** The cleaning loop leaves a short query of clean words as it is. *)
Lemma clean_words_join ws :
  Forall is_word ws →
  Forall (λ w, startswith_any url_prefixes w = false) ws →
  len (join " " ws) ≤ 200 →
  clean_words (join " " ws) = ws.
Proof.
  intros Hw Hu Hlen. unfold clean_words.
  rewrite take_all by done. rewrite strip_id by (by apply join_words_trimmed).
  rewrite split_ws_join by done. by apply filter_no_url.
Qed.

Lemma prepare_join ws :
  Forall is_word ws →
  Forall (λ w, startswith_any url_prefixes w = false) ws →
  len (join " " ws) ≤ 150 →
  _prepare_search_query (join " " ws) = join " " ws.
Proof.
  intros Hw Hu Hlen. unfold _prepare_search_query.
  rewrite clean_words_join by (done || lia).
  by destruct (Nat.ltb_spec 150 (len (join " " ws))); [lia|].
Qed.

(** Every prepared query is a space-joined list of clean words of at most
    150 characters. *)
Lemma prepare_output_words content :
  ∃ ws, Forall is_word ws
        ∧ Forall (λ w, startswith_any url_prefixes w = false) ws
        ∧ len (join " " ws) ≤ 150
        ∧ _prepare_search_query content = join " " ws.
Proof.
  pose proof (clean_words_is_word content) as Hw.
  pose proof (clean_words_no_url content) as Hu.
  unfold _prepare_search_query.
  set (ws := clean_words content) in *. set (q := join " " ws).
  destruct (Nat.ltb_spec 150 (len q)) as [Hlen|Hlen].
  2:{ exists ws. by split_and!. }
  assert (Hcut : len (rsplit1_head (take 150 q)) ≤ 150).
  { etrans; [apply len_rsplit1_head|]. rewrite len_take. lia. }
  unfold rsplit1_head in *.
  destruct (before_last_space (take 150 q)) as [r|] eqn:E; cbn [default] in *.
  - destruct (before_last_space_take_join ws 150 r Hw E) as (k & _ & ->).
    exists (firstn k ws). split_and!; try done; by apply Forall_take.
  - apply before_last_space_None in E.
    destruct ws as [|w ws'] eqn:Ews; [by vm_compute in Hlen; lia|].
    subst q. rewrite (take_join_spaceless w ws' 150 E) in *.
    apply Forall_cons in Hw as [[Hne Hsp] _]. apply Forall_cons in Hu as [Hu _].
    exists [take 150 w]. split_and!; try done.
    + repeat constructor; [by destruct w | by apply spaceless_take].
    + repeat constructor. by apply startswith_any_take.
Qed.

(** X1: preparing a query that is already prepared changes nothing. *)
Theorem prepare_search_query_idempotent (content : string) :
  _prepare_search_query (_prepare_search_query content) = _prepare_search_query content.
Proof.
  destruct (prepare_output_words content) as (ws & Hw & Hu & Hlen & ->).
  by apply prepare_join.
Qed.

Lemma startswith_take_ge p n s :
  len p ≤ n → startswith p s = true → startswith p (take n s) = true.
Proof.
  revert n s. induction p as [|a p IH]; intros n s Hn; [done|].
  destruct n as [|n]; [by unfold len in Hn; simpl in Hn; lia|].
  destruct s as [|b s]; [done|]. cbn [startswith take].
  destruct (Ascii.eqb a b); [|done]. apply IH. unfold len in *. simpl in Hn. lia.
Qed.

Lemma startswith_nonempty p s : p ≠ "" → startswith p s = true → s ≠ "".
Proof. destruct p, s; done. Qed.

Lemma url_token_dropped content :
  spaceless content = true →
  startswith_any url_prefixes content = true →
  clean_words content = [].
Proof.
  intros Hsp Hurl. unfold clean_words.
  assert (Hurl' : startswith_any url_prefixes (take 200 content) = true).
  { unfold startswith_any, url_prefixes in *. cbn [existsb] in *.
    repeat (apply orb_true_iff in Hurl as [Hurl|Hurl]); try done.
    - rewrite (startswith_take_ge "http://") by (done || vm_compute; lia). done.
    - rewrite (startswith_take_ge "https://") by (done || vm_compute; lia).
      by rewrite orb_true_r.
    - rewrite (startswith_take_ge "www.") by (done || vm_compute; lia).
      by rewrite !orb_true_r. }
  assert (Hword : is_word (take 200 content)).
  { split; [|by apply spaceless_take]. intros H. by rewrite H in Hurl'. }
  rewrite strip_id by (apply word_trimmed, Hword).
  rewrite split_ws_word by done.
  rewrite filter_cons_False by (rewrite Hurl'; intros H; by apply H). done.
Qed.

(** X2: a text that is one URL-shaped token alone, of whatever length,
    prepares to the empty query; searching for it is searching for the empty
    string.  (The handler passes the submitted URL as the query when its
    extraction failed.) *)
Theorem url_only_query_is_empty (google_search : string → nat → outcome SerpResults)
    (content : string) (num_results : nat) :
  spaceless content = true →
  startswith_any url_prefixes content = true →
  _prepare_search_query content = ""
  ∧ search_related_news google_search content num_results
    = search_related_news google_search "" num_results.
Proof.
  intros Hsp Hurl.
  assert (H : _prepare_search_query content = "").
  { unfold _prepare_search_query. by rewrite url_token_dropped. }
  split; [done|]. unfold search_related_news. by rewrite H.
Qed.

Lemma url_only_query_is_empty_witness :
  spaceless Demo.story_url = true
  ∧ startswith_any url_prefixes Demo.story_url = true
  ∧ _prepare_search_query Demo.story_url = "".
Proof.
  split; [reflexivity|]. split; [reflexivity|].
  exact (proj1 (url_only_query_is_empty Demo.google_search Demo.story_url 10
                  eq_refl eq_refl)).
Defined.

(** X3: the search never raises and returns at most [num_results]
    articles; the news results come first, in their order, and general web
    results only fill what the news results leave free; when the search
    client raises the result is empty. *)
Theorem search_related_news_shape (google_search : string → nat → outcome SerpResults)
    (query : string) (num_results : nat) :
  ∃ articles,
    search_related_news google_search query num_results = Returned articles
    ∧ length articles ≤ num_results
    ∧ match google_search (_prepare_search_query query) (min num_results 10) with
      | Raised _ => articles = []
      | Returned results =>
          let news := default [] (news_results results) in
          let organic := default [] (organic_results results) in
          firstn (length news) articles = news_article <$> firstn num_results news
          ∧ (num_results ≤ length news →
             articles = news_article <$> firstn num_results news)
          ∧ (length news < num_results →
             articles = (news_article <$> news)
                        ++ (organic_article <$> firstn (num_results - length news) organic))
      end.
Proof.
  unfold search_related_news.
  destruct (google_search _ _) as [[news organic]|e]; cbn [mbind outcome_bind try_except];
    [|exists []; split_and!; [done | simpl; lia | done]].
  cbn [NewsSearch.news_results NewsSearch.organic_results mret outcome_ret].
  eexists. split; [reflexivity|].
  set (ns := default [] news). set (os := default [] organic).
  assert (Hn : match news with Some items => news_article <$> firstn num_results items
                             | None => [] end = news_article <$> firstn num_results ns).
  { destruct news; [done|]. subst ns. simpl. by rewrite take_nil. }
  rewrite Hn. clear Hn.
  set (arts := news_article <$> firstn num_results ns).
  assert (Hlen : length arts = min num_results (length ns)).
  { unfold arts. by rewrite length_fmap, length_take. }
  destruct (Nat.ltb_spec (length arts) num_results) as [Hlt|Hge].
  - assert (Hall : firstn num_results ns = ns) by (apply take_ge; lia).
    assert (Hlen' : length arts = length ns) by lia.
    assert (Hres : match organic with
                   | Some items => arts ++ (organic_article <$> firstn (num_results - length arts) items)
                   | None => arts end
                   = arts ++ (organic_article <$> firstn (num_results - length ns) os)).
    { rewrite Hlen'. destruct organic; [done|]. subst os. simpl.
      by rewrite take_nil, app_nil_r. }
    rewrite Hres. split_and!.
    + rewrite length_app, length_fmap, length_take. lia.
    + rewrite <- Hlen'. by rewrite take_app_length.
    + intros ?. lia.
    + intros _. unfold arts. by rewrite Hall.
  - split_and!.
    + lia.
    + apply take_ge. lia.
    + done.
    + intros ?. lia.
Qed.

End NewsSearchMore.

(** ** extract.py, continued *)
Module ExtractMore.
Import PyStr PyStrFacts Ends EndsFacts Extract ExtractFacts Metadata.

Lemma app_assoc_str s t u : (s +:+ t) +:+ u = s +:+ (t +:+ u).
Proof. induction s as [|c s IH]; [done|]. by rewrite !app_cons, IH. Qed.

Lemma startswith_app p r : startswith p (p +:+ r) = true.
Proof.
  induction p as [|c p IH]; [done|]. rewrite app_cons. cbn [startswith].
  by rewrite Ascii.eqb_refl.
Qed.

Lemma size_list_to_set_le (l : list string) :
  size (list_to_set l : gset string) ≤ length l.
Proof.
  induction l as [|x l IH]; [by rewrite list_to_set_nil, size_empty|].
  rewrite list_to_set_cons, size_union_alt, size_singleton. simpl.
  pose proof (subseteq_size (list_to_set l ∖ {[x]}) (list_to_set l : gset string)) as H.
  assert (list_to_set l ∖ {[x]} ⊆ (list_to_set l : gset string)) as Hsub.
  { intros y Hy. by apply elem_of_difference in Hy as [? _]. }
  specialize (H Hsub). lia.
Qed.

Section Extractor.
Variable article_parse : string → outcome ParsedArticle.

Local Abbreviation extract_from_url := (Extract.extract_from_url article_parse).
Local Abbreviation extract_multiple := (Extract.extract_multiple article_parse).
Local Abbreviation extracted := (Extract.extracted article_parse).

Lemma headline_text_stripped article :
  nonempty_text (article_title article) = true →
  startswith "HEADLINE:" (strip (with_headline article)) = true.
Proof.
  intros Ht. unfold with_headline. rewrite Ht. unfold strip.
  rewrite lstrip_id by (by intros c [= <-]).
  change ("HEADLINE: " +:+ ?x) with ("HEADLINE:" +:+ (" " +:+ x)).
  destruct (rstrip_prefix "HEADLINE:" (" " +:+ article_title article +:+ nl +:+ nl
                                         +:+ article_text article)) as [r ->].
  { by exists ":"%char. }
  apply startswith_app.
Qed.

(** X4: the extraction of one URL never raises.  A text it returns is not
    empty and has no space character at either end; it starts with
    [HEADLINE:] when the article has a title and is the stripped body text
    otherwise. *)
Theorem extract_from_url_shape (url : string) :
  ∃ result,
    extract_from_url url = Returned result
    ∧ ∀ text, result = Some text →
        text ≠ "" ∧ trimmed text
        ∧ ∃ article, article_parse url = Returned article
            ∧ if nonempty_text (article_title article)
              then startswith "HEADLINE:" text = true
              else text = strip (article_text article).
Proof.
  exists (extracted url). split; [apply extract_from_url_extracted|].
  intros text Ht. split; [by apply (extracted_Some_nonempty article_parse url)|].
  unfold Extract.extracted in Ht.
  destruct (article_parse url) as [article|e]; [|done]. cbn in Ht.
  destruct (nonempty_text (strip (with_headline article))); [|done].
  injection Ht as <-. split; [apply strip_trimmed|].
  exists article. split; [done|].
  destruct (nonempty_text (article_title article)) eqn:Htitle.
  - by apply headline_text_stripped.
  - unfold with_headline. by rewrite Htitle.
Qed.

(** X5: a page with a title and no body text still counts as extracted:
    the result is its headline line alone. *)
Theorem headline_only_page (url : string) (article : ParsedArticle) :
  article_parse url = Returned article →
  article_title article ≠ "" → trimmed (article_title article) →
  blank (article_text article) = true →
  extract_from_url url = Returned (Some ("HEADLINE: " +:+ article_title article)).
Proof.
  intros Hp Hne Htr Hblank. rewrite extract_from_url_extracted.
  unfold Extract.extracted. rewrite Hp.
  assert (Htitle : nonempty_text (article_title article) = true).
  { unfold nonempty_text. apply negb_true_iff, String.eqb_neq. done. }
  assert (Hs : strip (with_headline article) = "HEADLINE: " +:+ article_title article).
  { unfold with_headline. rewrite Htitle. unfold strip.
    rewrite lstrip_id by (by intros c [= <-]).
    rewrite <- (app_assoc_str "HEADLINE: " (article_title article)).
    apply rstrip_app_blank.
    - destruct (last_char (article_title article)) as [c|] eqn:Hl.
      + exists c. rewrite last_char_app by done. split; [done|]. by apply Htr.
      + by apply last_char_None in Hl.
    - by cbn. }
  cbn. rewrite Hs. done.
Qed.

(** X6: a batch may list a URL more than once: the mapping has one entry
    per distinct URL, so never more entries than URLs listed, every listed
    URL is bound to its own extraction, and no other key is bound. *)
Theorem extract_multiple_repeated (urls : list string) :
  ∃ m : gmap string (option string),
    extract_multiple urls = Returned m
    ∧ dom m = list_to_set urls
    ∧ size m ≤ length urls
    ∧ (∀ u, u ∈ urls → m !! u = Some (extracted u))
    ∧ (∀ u, u ∉ urls → m !! u = None).
Proof.
  eexists. split; [reflexivity|].
  set (m := foldl record_result ∅ _).
  assert (Hdom : dom m = list_to_set urls).
  { unfold m. rewrite record_results_dom, dom_empty_L. by rewrite (right_id_L ∅ (∪)). }
  split_and!.
  - done.
  - rewrite <- size_dom, Hdom. apply size_list_to_set_le.
  - intros u Hu. unfold m. by rewrite record_results_lookup, decide_True.
  - intros u Hu. unfold m. by rewrite record_results_lookup, decide_False, lookup_empty.
Qed.

End Extractor.

Section Metadata.
Variable page_parse : string → outcome ParsedPage.

Local Abbreviation extract_with_metadata := (Metadata.extract_with_metadata page_parse).


End Metadata.

Lemma headline_only_page_witness :
  Extract.extract_from_url
    (λ _, Returned {| article_title := "Storm hits coast"; article_text := "" |})
    "https://a.example/1"
  = Returned (Some "HEADLINE: Storm hits coast").
Proof.
  apply (headline_only_page _ "https://a.example/1"
           {| article_title := "Storm hits coast"; article_text := "" |});
    [reflexivity | done | | reflexivity].
  split; intros c [= <-]; reflexivity.
Defined.

End ExtractMore.

(** ** groq_client.py and main.py, continued *)
Module PipelineMore.
Import PyStr PyStrFacts Models ModelsFacts NewsSearch NewsSearchFacts Groq GroqFacts
  Main MainFacts Related.

Lemma finalize_lookup_evidence fields n :
  finalize fields n !! "evidence_links"
  = Some (default (JArray []) (fields !! "evidence_links")).
Proof.
  unfold finalize. rewrite !lookup_insert_ne by done.
  case_bool_decide as H.
  - rewrite !lookup_insert_ne by done. by destruct H as [v ->].
  - rewrite lookup_insert_eq. destruct (fields !! "evidence_links") eqn:E; [|done].
    destruct H. eauto.
Qed.

Section Client.
Variable json_loads : string → outcome json.
Variable int_of_str : string → option Z.
Variable error_text : builtin_op → json → string.
Variable chat_completion : string → list RelatedContent → bool → outcome string.

Local Abbreviation py_int := (Groq.py_int int_of_str error_text).
Local Abbreviation verify_news :=
  (Groq.verify_news json_loads int_of_str error_text chat_completion).


End Client.


Section Handler.
Variable extract_from_url : string → outcome (option string).
Variable search_related_news : string → nat → outcome (list Article).
Variable urlparse : string → outcome ParseResult.

Local Abbreviation resolve_content := (Main.resolve_content extract_from_url urlparse).
Local Abbreviation collect_step := (Main.collect_step extract_from_url).
Local Abbreviation collect_evidence := (Main.collect_evidence extract_from_url).

Lemma take_nonempty n s : 0 < n → s ≠ "" → take n s ≠ "".
Proof. destruct n, s; (done || lia). Qed.

Lemma foldl_collect_contents articles acc (P : RelatedContent → Prop) :
  (∀ article text, article ∈ articles →
     extract_from_url (url article) = Returned (Some text) → text ≠ "" →
     P (content_of article text)) →
  Forall P acc.1 →
  Forall P (foldl collect_step acc articles).1
  ∧ length (foldl collect_step acc articles).1 ≤ length acc.1 + length articles.
Proof.
  revert acc. induction articles as [|article articles IH]; intros acc HP Hacc.
  { simpl. split; [done | lia]. }
  cbn [foldl].
  destruct (IH (collect_step acc article)) as [H1 H2].
  - intros a text Ha. apply HP. by right.
  - unfold Main.collect_step.
    destruct (extract_from_url (url article)) as [[text|]|e] eqn:E; try done.
    destruct (nonempty_text text) eqn:Hne; [|done]. cbn [fst].
    apply Forall_app. split; [done|]. repeat constructor.
    apply (HP article text); [by left | done |].
    intros ->. done.
  - split; [done|]. etrans; [exact H2|]. simpl.
    unfold Main.collect_step.
    destruct (extract_from_url (url article)) as [[text|]|e]; simpl; try lia.
    destruct (nonempty_text text); simpl; [rewrite length_app; simpl|]; lia.
Qed.

(** X9: every related content handed to the analysis comes from one of the
    related articles, with its title, source and URL, and carries a
    non-empty text of at most 1000 characters, the head of what the
    extraction of that URL returned; there are no more related contents than
    related articles. *)
Theorem related_contents_bounded (related_articles : list Article) :
  let related_contents := (collect_evidence related_articles).1 in
  length related_contents ≤ length related_articles
  ∧ Forall (λ rc, rc_text rc ≠ "" ∧ len (rc_text rc) ≤ 1000
                  ∧ ∃ article text,
                      article ∈ related_articles
                      ∧ extract_from_url (url article) = Returned (Some text)
                      ∧ rc = content_of article text)
           related_contents.
Proof.
  intros related_contents. subst related_contents. unfold Main.collect_evidence.
  destruct (foldl_collect_contents related_articles ([], [])
    (λ rc, rc_text rc ≠ "" ∧ len (rc_text rc) ≤ 1000
           ∧ ∃ article text,
               article ∈ related_articles
               ∧ extract_from_url (url article) = Returned (Some text)
               ∧ rc = content_of article text)) as [H1 H2].
  - intros article text Ha He Hne. unfold content_of. cbn [rc_text]. split_and!.
    + by apply take_nonempty; [lia|].
    + rewrite len_take. lia.
    + eauto.
  - constructor.
  - split; [exact H2 | exact H1].
Qed.

(** X10: a submitted URL is replaced by its extracted text exactly when the
    extraction returns more than 50 characters; [urlparse] is not consulted
    then.  A content that is no URL is analysed as submitted. *)
Theorem resolve_content_extracted (content text : string) :
  (extract_from_url content = Returned (Some text) → 50 < len text →
   resolve_content content true = Returned (text, false))
  ∧ (resolve_content content true = Returned (text, false) →
     extract_from_url content = Returned (Some text) ∧ 50 < len text)
  ∧ resolve_content content false = Returned (content, false).
Proof.
  unfold Main.resolve_content. split_and!; [| |done].
  - intros -> Hlen. cbn [mbind outcome_bind try_except].
    assert (Hne : nonempty_text text = true) by (by destruct text; [unfold len in Hlen; simpl in Hlen; lia|]).
    rewrite Hne. apply Nat.ltb_lt in Hlen. by rewrite Hlen.
  - destruct (extract_from_url content) as [[t|]|e]; cbn [mbind outcome_bind try_except].
    + destruct (nonempty_text t && (50 <? len t)) eqn:E.
      * intros [= ->]. apply andb_true_iff in E as [_ E]. by apply Nat.ltb_lt in E.
      * destruct (urlparse content); cbn; [by intros [= _ ?] | done].
    + destruct (urlparse content); cbn; [by intros [= _ ?] | done].
    + destruct (urlparse content); cbn; [by intros [= _ ?] | done].
Qed.

End Handler.

End PipelineMore.

(** ** The failures of the handler *)
Module FailureFacts.
Import PyStr PyStrFacts Models ModelsFacts NewsSearch NewsSearchFacts Groq GroqFacts
  Main MainFacts.

Section App.
Variable article_parse : string → outcome Extract.ParsedArticle.
Variable google_search : string → nat → outcome SerpResults.
Variable chat_completion : string → list RelatedContent → bool → outcome string.
Variable json_loads : string → outcome json.
Variable int_of_str : string → option Z.
Variable urlparse : string → outcome ParseResult.
Variable lower : string → string.
Variable error_text : builtin_op → json → string.
Variable coerce_str : json → outcome string.
Variable coerce_int : json → outcome Z.
Variable validation_error : string → exn.

Local Abbreviation article_extractor := (Main.article_extractor article_parse).
Local Abbreviation news_searcher := (Main.news_searcher google_search).
Local Abbreviation analysis_inputs :=
  (Main.analysis_inputs article_parse google_search urlparse lower).
Local Abbreviation verify_news :=
  (Main.verify_news article_parse google_search chat_completion json_loads int_of_str
     urlparse lower error_text coerce_str coerce_int validation_error).
Local Abbreviation build_response :=
  (Main.build_response lower error_text coerce_str coerce_int validation_error).

(** With the services initialized, steps 1 to 3 raise only what [urlparse]
    raises on a submitted URL, and never return early. *)
Lemma analysis_inputs_cases content :
  (∃ main_content related_contents links,
     analysis_inputs true content
     = Returned (inr (main_content, related_contents, links)))
  ∨ (∃ e, analysis_inputs true content = Raised e
          ∧ startswith_any ["http://"; "https://"] content = true
          ∧ urlparse content = Raised e).
Proof.
  destruct (startswith_any ["http://"; "https://"] content) eqn:Hurl.
  2:{ left. apply analysis_inputs_reached. by rewrite Hurl. }
  destruct (urlparse content) as [parsed|e] eqn:Hp.
  { left. apply analysis_inputs_reached. eauto. }
  unfold Main.analysis_inputs, Main.steps_1_to_3. rewrite Hurl.
  unfold Main.resolve_content, Main.article_extractor, service_call.
  rewrite ExtractFacts.extract_from_url_extracted. run. rewrite Hp.
  destruct (Extract.extracted article_parse content) as [text|].
  - destruct (nonempty_text text && (50 <? len text)) eqn:E; run.
    + left. unfold Main.search_stage, Main.news_searcher, service_call. cbn [fst snd].
      destruct (search_related_news_returns google_search
                  (if negb false then take 500 text else content) 10) as [articles ->].
      eauto.
    + right. by exists e.
  - run. right. by exists e.
Qed.

(** X11: with the services initialized the handler fails in two ways only,
    both with status 500: [urlparse] raised on a submitted URL whose
    extraction had failed, or the response model refused the dictionary of
    the analysis, which happens only when its verdict or its summary is not a
    string.  Neither the extraction, nor the search, nor the model call can
    make the request fail. *)
Theorem handler_failures (content : string) (status_code : nat) (detail : string) :
  verify_news true content = HTTPException status_code detail →
  status_code = 500
  ∧ ((∃ e, startswith_any ["http://"; "https://"] content = true
           ∧ urlparse content = Raised e
           ∧ detail = "Verification process failed: " +:+ exn_str e)
     ∨ (∃ main_content related_contents links fields e,
          analysis_inputs true content
          = Returned (inr (main_content, related_contents, links))
          ∧ Groq.verify_news json_loads int_of_str error_text chat_completion
              main_content related_contents
              (startswith_any ["http://"; "https://"] content)
            = Returned (JObject fields)
          ∧ build_response
              (JObject (<["evidence_links" := JArray (JString <$> firstn 5 links)]> fields))
            = Raised e
          ∧ detail = "AI analysis failed: " +:+ exn_str e
          ∧ ((∀ vd, fields !! "verdict" ≠ Some (JString vd))
             ∨ (∀ sm, fields !! "summary" ≠ Some (JString sm))))).
Proof.
  unfold Main.verify_news, Main.verify_news_with.
  destruct (analysis_inputs_cases content)
    as [(mc & rcs & links & Hin)|(e & Hin & Hurl & Hp)];
    unfold Main.analysis_inputs in Hin; rewrite Hin.
  2:{ intros [= <- <-]. split; [done|]. left. eauto. }
  unfold Main.analysis_stage, Main.groq_client, service_call.
  destruct (verify_news_result_dict json_loads int_of_str error_text chat_completion
              mc rcs (startswith_any ["http://"; "https://"] content))
    as (result & Hr & fields & n & -> & [v Hv] & Hc & Hn & [sm Hs] & Hl).
  rewrite Hr. run. rewrite py_setitem_object. run.
  rewrite (py_getitem_object _ _ _ v) by (by rewrite lookup_insert_ne). run.
  destruct (build_response _) as [response|e] eqn:Hb; [done|].
  intros [= <- <-]. split; [done|]. right.
  exists mc, rcs, links, fields, e. split_and!; try done.
  destruct v as [| | | |vd| |]; try (left; intros vd' ?; congruence).
  destruct sm as [| | | |sm'| |]; try (right; intros sm'' ?; congruence).
  rewrite (build_response_dict lower error_text coerce_str coerce_int validation_error
             _ vd n sm' (firstn 5 links)) in Hb; try done;
    first [by rewrite lookup_insert_eq | by rewrite lookup_insert_ne].
Qed.

End App.

Lemma handler_failures_witness :
  Demo.verify_news true "http://[bad-host/path"
  = HTTPException 500 "Verification process failed: Invalid IPv6 URL"
  ∧ 500 = 500.
Proof.
  assert (H : Demo.verify_news true "http://[bad-host/path"
              = HTTPException 500 "Verification process failed: Invalid IPv6 URL")
    by (vm_compute; reflexivity).
  split; [exact H|].
  exact (proj1 (handler_failures _ _ _ _ _ _ _ _ _ _ _ _ _ _ H)).
Defined.

End FailureFacts.

(** ** models.py, continued *)
Module ModelsMore.
Import PyStr PyStrFacts Ends EndsFacts Models ModelsFacts Requests.

(** X12: validating a verdict twice is validating it once. *)
Theorem validate_verdict_idempotent (lower : string → string) (v : string) :
  validate_verdict lower (validate_verdict lower v) = validate_verdict lower v.
Proof.
  pose proof (validate_verdict_allowed lower v) as H.
  unfold validate_verdict at 1. by rewrite bool_decide_eq_true_2.
Qed.

Lemma len_lstrip s : len (lstrip s) ≤ len s.
Proof.
  induction s as [|c s IH]; [done|]. cbn [lstrip].
  destruct (isspace c); [|done]. unfold len in *. simpl. lia.
Qed.

Lemma len_rstrip s : len (rstrip s) ≤ len s.
Proof.
  induction s as [|c s IH]; [done|]. rewrite rstrip_cons.
  destruct (rstrip s) as [|d r].
  - destruct (isspace c); unfold len; simpl; lia.
  - unfold len in *. simpl in *. lia.
Qed.

Lemma len_strip s : len (strip s) ≤ len s.
Proof. unfold strip. etrans; [apply len_rstrip | apply len_lstrip]. Qed.

(** X13: a request content that is accepted was sent with 10 to 10000
    characters; what the handler receives is that content stripped: not
    empty, without a space character at either end, and no longer than what
    was sent. *)
Theorem VerifyRequest_accepted (raw content : string) :
  VerifyRequest raw = inr content →
  10 ≤ len raw ∧ len raw ≤ 10000
  ∧ content = strip raw ∧ content ≠ "" ∧ trimmed content ∧ len content ≤ len raw.
Proof.
  unfold VerifyRequest, validate_content.
  destruct (Nat.ltb_spec (len raw) 10); [done|].
  destruct (Nat.ltb_spec 10000 (len raw)); [done|].
  destruct (nonempty_text (strip raw)) eqn:E; [|done]. cbn [negb].
  intros [= <-]. split_and!; try done.
  - apply negb_true_iff, String.eqb_neq in E. done.
  - apply strip_trimmed.
  - apply len_strip.
Qed.

(** X14: the lower bound of 10 characters holds for the content as sent,
    not for the content the handler receives: any word followed by ten spaces
    is accepted and reaches the handler as the word alone. *)
Theorem VerifyRequest_padded (w : string) :
  is_word w → len w ≤ 9990 →
  VerifyRequest (w +:+ "          ") = inr w.
Proof.
  intros [Hne Hw] Hlen. unfold VerifyRequest, validate_content.
  rewrite len_app. change (len "          ") with 10.
  assert (H9990 : 9990 = 10 * 999) by (vm_compute; reflexivity).
  assert (H10000 : 10000 = 10 * 1000) by (vm_compute; reflexivity).
  rewrite H9990 in Hlen. rewrite H10000.
  destruct (Nat.ltb_spec (len w + 10) 10); [lia|].
  destruct (Nat.ltb_spec (10 * 1000) (len w + 10)); [lia|].
  assert (Hs : strip (w +:+ "          ") = w).
  { unfold strip. destruct (word_trimmed w Hw) as [Hf Hl].
    rewrite lstrip_id.
    - apply rstrip_app_blank; [|done].
      destruct (last_char w) as [c|] eqn:E; [eauto|]. by apply last_char_None in E.
    - intros c. rewrite first_char_app by done. apply Hf. }
  rewrite Hs. unfold nonempty_text.
  destruct (String.eqb_spec w ""); [done|]. done.
Qed.

Lemma VerifyRequest_accepted_witness :
  VerifyRequest "  The moon is made of cheese.  " = inr "The moon is made of cheese."
  ∧ 10 ≤ len "  The moon is made of cheese.  ".
Proof.
  assert (H : VerifyRequest "  The moon is made of cheese.  "
              = inr "The moon is made of cheese.") by reflexivity.
  split; [exact H|].
  exact (proj1 (VerifyRequest_accepted _ _ H)).
Defined.

Lemma VerifyRequest_padded_witness : VerifyRequest ("Mars" +:+ "          ") = inr "Mars".
Proof.
  apply VerifyRequest_padded.
  - split; [done | reflexivity].
  - apply Nat.leb_le. vm_compute. reflexivity.
Defined.

End ModelsMore.

(** ** utils/helpers.py *)
Module HelpersFacts.
Import PyStr PyStrFacts Ends EndsFacts Helpers.

(** *** truncate_text *)

Lemma take_take_le n m s : n ≤ m → take n (take m s) = take n s.
Proof.
  revert m s. induction n as [|n IH]; intros m s Hnm; [done|].
  destruct m as [|m]; [lia|]. destruct s as [|c s]; [done|].
  cbn [take]. f_equal. apply IH. lia.
Qed.

Lemma rfind_char_None c s : rfind_char c s = None ↔ has_char c s = false.
Proof.
  induction s as [|d s IH]; [done|]. cbn [rfind_char has_char].
  rewrite (Ascii.eqb_sym c d).
  destruct (rfind_char c s), (Ascii.eqb d c); cbn [orb]; split; try done.
  - intros H. destruct IH as [_ IH]. by specialize (IH H).
  - intros _. by apply IH.
Qed.

(** [rfind] finds the last [c]: after it no further [c] follows. *)
Lemma rfind_char_app c before after :
  has_char c after = false →
  rfind_char c (before +:+ String c after) = Some (len before).
Proof.
  intros H. induction before as [|d before IH].
  - change ("" +:+ String c after) with (String c after). cbn [rfind_char].
    apply rfind_char_None in H. by rewrite H, Ascii.eqb_refl.
  - rewrite app_cons. cbn [rfind_char]. by rewrite IH.
Qed.

Lemma rfind_char_Some c s i :
  rfind_char c s = Some i →
  ∃ before after, s = before +:+ String c after ∧ len before = i
                  ∧ has_char c after = false.
Proof.
  revert i. induction s as [|d s IH]; intros i; [done|]. cbn [rfind_char].
  destruct (rfind_char c s) as [j|] eqn:E.
  - intros [= <-]. destruct (IH j eq_refl) as (before & after & -> & <- & Ha).
    by exists (String d before), after.
  - destruct (Ascii.eqb_spec d c) as [->|]; [|done]. intros [= <-].
    exists "", s. split; [done|]. split; [done|]. by apply rfind_char_None.
Qed.

Lemma take_through before c after :
  take (len before + 1) (before +:+ String c after) = before +:+ String c "".
Proof.
  induction before as [|d before IH]; [done|].
  rewrite !app_cons. change (len (String d before) + 1) with (S (len before + 1)).
  cbn [take]. by rewrite IH.
Qed.

(** X15: a text within [max_length] is returned as it is.  A longer text is
    first cut to its first [max_length] characters.  When these hold no
    period, or when what stands before their last period is at most four
    fifths of [max_length] long, the result is these characters followed by
    three dots, [max_length + 3] characters in all, more than the length
    asked for.  When more than four fifths of [max_length] stand before
    their last period, the result ends with that period and is at most
    [max_length] long.  One of these cases always applies. *)
Theorem truncate_text_cases (text : string) (max_length : nat) :
  let truncated := take max_length text in
  (len text ≤ max_length → truncate_text text max_length = text)
  ∧ (max_length < len text →
     (has_char "." truncated = false →
      truncate_text text max_length = truncated +:+ "...")
     ∧ (∀ before after,
          truncated = before +:+ "." +:+ after → has_char "." after = false →
          (4 * max_length < 5 * len before →
           truncate_text text max_length = before +:+ "."
           ∧ len (truncate_text text max_length) ≤ max_length)
          ∧ (5 * len before ≤ 4 * max_length →
             truncate_text text max_length = truncated +:+ "..."))
     ∧ (has_char "." truncated = false
        ∨ ∃ before after,
            truncated = before +:+ "." +:+ after ∧ has_char "." after = false)
     ∧ len (truncated +:+ "...") = max_length + 3).
Proof.
  intros truncated. unfold truncate_text. fold truncated. split.
  - intros H. by destruct (Nat.leb_spec (len text) max_length); [|lia].
  - intros H. destruct (Nat.leb_spec (len text) max_length); [lia|].
    assert (Hlen : len truncated = max_length).
    { unfold truncated. rewrite len_take. lia. }
    split_and!.
    + intros Hno. apply rfind_char_None in Hno. by rewrite Hno.
    + intros before after Hd Ha.
      change ("." +:+ after) with (String "." after) in Hd.
      rewrite Hd, (rfind_char_app _ _ _ Ha), take_through.
      assert (len before + 1 ≤ max_length).
      { rewrite <- Hlen, Hd, len_app. unfold len. simpl. lia. }
      split.
      * intros Hfar. destruct (Nat.ltb_spec (4 * max_length) (5 * len before)); [|lia].
        split; [done|]. rewrite len_app. by change (len ".") with 1.
      * intros Hnear. by destruct (Nat.ltb_spec (4 * max_length) (5 * len before)); [lia|].
    + destruct (rfind_char "." truncated) as [i|] eqn:E.
      * right. apply rfind_char_Some in E as (before & after & Hd & _ & Ha).
        by exists before, after.
      * left. by apply rfind_char_None.
    + rewrite len_app, Hlen. by change (len "...") with 3.
Qed.

Lemma truncate_text_cases_witness :
  truncate_text "One. Two three four" 10 = "One. Two t..."
  ∧ truncate_text "Hurricane. Rain" 10 = "Hurricane.".
Proof.
  split.
  - destruct (proj2 (truncate_text_cases "One. Two three four" 10)
                ltac:(vm_compute; lia)) as (_ & Hperiod & _).
    exact (proj2 (Hperiod "One" " Two t" eq_refl eq_refl) ltac:(vm_compute; lia)).
  - destruct (proj2 (truncate_text_cases "Hurricane. Rain" 10)
                ltac:(vm_compute; lia)) as (_ & Hperiod & _).
    exact (proj1 (proj1 (Hperiod "Hurricane" "" eq_refl eq_refl) ltac:(vm_compute; lia))).
Defined.

(** *** clean_text *)

Lemma has_char_cons c d s : has_char c (String d s) = Ascii.eqb c d || has_char c s.
Proof. reflexivity. Qed.

Lemma has_char_lstrip c s : has_char c (lstrip s) = true → has_char c s = true.
Proof.
  induction s as [|d s IH]; [done|]. cbn [lstrip]. destruct (isspace d); [|done].
  intros H. rewrite has_char_cons, IH by done. apply orb_true_r.
Qed.

Lemma has_char_rstrip c s : has_char c (rstrip s) = true → has_char c s = true.
Proof.
  induction s as [|d s IH]; [done|]. rewrite rstrip_cons.
  destruct (rstrip s) as [|e r].
  - destruct (isspace d); [done|]. rewrite !has_char_cons. intros H.
    apply orb_true_iff in H as [->|H]; [done | done].
  - rewrite !has_char_cons in *. intros H. apply orb_true_iff in H as [->|H]; [done|].
    rewrite IH by done. apply orb_true_r.
Qed.

Lemma has_char_strip c s : has_char c (strip s) = true → has_char c s = true.
Proof. unfold strip. intros H. by apply has_char_lstrip, has_char_rstrip. Qed.

Lemma has_char_filter keep c s :
  has_char c (filter_chars keep s) = true → keep c = true ∧ has_char c s = true.
Proof.
  induction s as [|d s IH]; [done|]. cbn [filter_chars]. destruct (keep d) eqn:Hd.
  - rewrite !has_char_cons. intros H. apply orb_true_iff in H as [H|H].
    + apply Ascii.eqb_eq in H as ->. split; [done|]. by rewrite Ascii.eqb_refl.
    + destruct (IH H) as [? ->]. split; [done | apply orb_true_r].
  - intros H. destruct (IH H) as [? Hs]. split; [done|].
    rewrite has_char_cons, Hs. apply orb_true_r.
Qed.

Lemma has_char_collapse c s :
  has_char c (collapse_spaces s) = true → isspace c = true → c = " "%char.
Proof.
  induction s as [|d s IH]; [done|]. cbn [collapse_spaces].
  destruct (isspace d) eqn:Hd.
  - destruct s as [|e s'].
    + cbn. rewrite orb_false_r. by intros ->%Ascii.eqb_eq.
    + destruct (isspace e) eqn:He; [apply IH|].
      rewrite has_char_cons. intros H Hc. apply orb_true_iff in H as [H|H].
      * by apply Ascii.eqb_eq in H.
      * by apply IH.
  - rewrite has_char_cons. intros H Hc. apply orb_true_iff in H as [H|H].
    + apply Ascii.eqb_eq in H as ->. congruence.
    + by apply IH.
Qed.

Section Cleaning.
Variable is_word_char : ascii → bool.

Local Abbreviation kept := (Helpers.kept is_word_char).
Local Abbreviation clean_text := (Helpers.clean_text is_word_char).


End Cleaning.

(** Runs of space characters collapse to one space, but removing a character
    between two spaces leaves both. *)
Example clean_text_double_space :
  Helpers.clean_text (λ c, Ascii.eqb c "a" || Ascii.eqb c "b") "  a   @ b " = "a  b".
Proof. reflexivity. Qed.

(** *** calculate_text_similarity *)

Section Similarity.
Variable lower : string → string.

Local Abbreviation calculate_text_similarity := (Helpers.calculate_text_similarity lower).

(** The set of words of a text, as the function computes it. *)
Local Abbreviation words text := (list_to_set (split_ws (lower text)) : gset string).

Lemma pos_of_nat_size (X : gset string) : X ≠ ∅ → Z.pos (Pos.of_nat (size X)) = Z.of_nat (size X).
Proof.
  intros HX. assert (size X ≠ 0) by (by intros ?%size_empty_inv%leibniz_equiv).
  destruct (size X) as [|n] eqn:E; [done|].
  rewrite <- Pos.of_nat_succ, Zpos_P_of_succ_nat. lia.
Qed.

(** X18: the similarity of two texts does not depend on their order, lies
    between 0 and 1, is 0 when one of them has no word, and is 1 when both
    have the same words, whatever their order and number of occurrences. *)
Theorem similarity_properties (text1 text2 : string) :
  calculate_text_similarity text1 text2 = calculate_text_similarity text2 text1
  ∧ (0 <= calculate_text_similarity text1 text2)%Q
  ∧ (calculate_text_similarity text1 text2 <= 1)%Q
  ∧ (words text1 = ∅ ∨ words text2 = ∅ → calculate_text_similarity text1 text2 = 0%Q)
  ∧ (words text1 = words text2 → words text1 ≠ ∅ →
     (calculate_text_similarity text1 text2 == 1)%Q).
Proof.
  unfold Helpers.calculate_text_similarity.
  set (w1 := words text1). set (w2 := words text2). split_and!.
  - rewrite orb_comm. by rewrite (comm_L (∩) w1 w2), (comm_L (∪) w1 w2).
  - destruct (_ || _); [done|]. unfold Qle. simpl. lia.
  - destruct (bool_decide (w1 = ∅) || bool_decide (w2 = ∅)) eqn:E; [done|].
    apply orb_false_iff in E as [E1 _]. apply bool_decide_eq_false in E1.
    unfold Qle. cbn [Qnum Qden]. rewrite pos_of_nat_size.
    + assert (size (w1 ∩ w2) ≤ size (w1 ∪ w2)); [|lia].
      apply subseteq_size. set_solver.
    + intros H. apply E1. set_solver.
  - intros [H|H]; rewrite H.
    + by rewrite bool_decide_eq_true_2.
    + rewrite (bool_decide_eq_true_2 (∅ = ∅)) by done. by rewrite orb_true_r.
  - intros Heq Hne. rewrite <- Heq.
    rewrite bool_decide_eq_false_2 by done. cbn [orb].
    rewrite (idemp_L (∩) w1), (idemp_L (∪) w1).
    unfold Qeq. cbn [Qnum Qden]. rewrite pos_of_nat_size by done. lia.
Qed.

End Similarity.

Lemma similarity_properties_witness :
  (Helpers.calculate_text_similarity Models.ascii_lower "Storm hits coast" "coast STORM hits"
   == 1)%Q.
Proof.
  apply (similarity_properties Models.ascii_lower "Storm hits coast" "coast STORM hits").
  - apply (bool_decide_unpack _). vm_compute. exact I.
  - apply (bool_decide_unpack _). vm_compute. exact I.
Defined.

End HelpersFacts.

(** ** The verification prompt *)
Module PromptFacts.
Import PyStr PyStrFacts Ends EndsFacts Groq Prompt.

Lemma has_char_app c s t : has_char c (s +:+ t) = has_char c s || has_char c t.
Proof.
  induction s as [|d s IH]; [done|]. rewrite app_cons. cbn [has_char].
  by rewrite IH, orb_assoc.
Qed.

Lemma split_char_zero c s : split_char c 0 s = [s].
Proof. by destruct s. Qed.

Lemma split_char_no_sep c m p : has_char c p = false → split_char c m p = [p].
Proof.
  induction p as [|d p IH]; [by destruct m|]. cbn [has_char].
  intros [Hd Hp]%orb_false_iff. destruct m as [|m]; [done|]. cbn [split_char].
  rewrite Ascii.eqb_sym, Hd. by rewrite IH.
Qed.

(** Splitting at the first separator. *)
Lemma split_char_at c m p rest :
  has_char c p = false →
  split_char c (S m) (p +:+ String c rest) = p :: split_char c m rest.
Proof.
  induction p as [|d p IH].
  - intros _. change ("" +:+ String c rest) with (String c rest).
    cbn [split_char]. by rewrite Ascii.eqb_refl.
  - cbn [has_char]. intros [Hd Hp]%orb_false_iff. rewrite app_cons.
    cbn [split_char]. rewrite Ascii.eqb_sym, Hd. by rewrite IH.
Qed.

Lemma remove_from_clean old s : contains old s = false → remove_from old 0 s = s.
Proof.
  induction s as [|c s IH]; [done|]. cbn [contains remove_from].
  intros [H1 H2]%orb_false_iff. rewrite H1. by rewrite IH.
Qed.

Lemma blank_app s t : blank (s +:+ t) = blank s && blank t.
Proof.
  induction s as [|c s IH]; [done|]. rewrite app_cons. cbn [blank].
  by rewrite IH, andb_assoc.
Qed.

Lemma rstrip_nonblank s : blank s = false → rstrip s ≠ "".
Proof.
  induction s as [|c s IH]; [done|]. cbn [blank]. rewrite rstrip_cons.
  intros H. destruct (rstrip s) eqn:E; [|done].
  destruct (blank s) eqn:Hb; [|by destruct IH].
  rewrite andb_true_r in H. by rewrite H.
Qed.

Lemma rstrip_app_nonblank p s : rstrip s ≠ "" → rstrip (p +:+ s) = p +:+ rstrip s.
Proof.
  intros Hs. induction p as [|c p IH]; [done|].
  rewrite !app_cons, rstrip_cons, IH. destruct (p +:+ rstrip s) eqn:E; [|done].
  destruct p; [done | done].
Qed.

Lemma app_nonempty_r p s : s ≠ "" → p +:+ s ≠ "".
Proof. destruct p; [done | done]. Qed.

Lemma startswith_headline s : startswith "HEADLINE:" ("HEADLINE: " +:+ s) = true.
Proof. reflexivity. Qed.

(** The headline line: what the prompt builder reads from it. *)
Lemma headline_of_line title :
  trimmed title → contains "HEADLINE:" title = false →
  strip (remove_all "HEADLINE:" ("HEADLINE: " +:+ title)) = title.
Proof.
  intros Htr Hc. unfold remove_all.
  change (remove_from "HEADLINE:" 0 ("HEADLINE: " +:+ title))
    with (remove_from "HEADLINE:" 0 (String " " title)).
  rewrite remove_from_clean.
  - unfold strip. cbn [lstrip]. rewrite space_isspace. by apply strip_id.
  - cbn [contains]. by rewrite Hc.
Qed.

(** X19: the headline survives the way from the extractor to the prompt.
    For an article whose title is not empty, has no space character at either
    end, no line feed and no [HEADLINE:] in it, the prompt builder reads from
    the extracted text exactly that title as the headline and the body text,
    stripped on the right, as the content. *)
Theorem headline_round_trip (article : Extract.ParsedArticle) :
  Extract.article_title article ≠ "" →
  trimmed (Extract.article_title article) →
  has_char (ascii_of_nat 10) (Extract.article_title article) = false →
  contains "HEADLINE:" (Extract.article_title article) = false →
  headline_and_body (strip (Extract.with_headline article))
  = (Extract.article_title article, rstrip (Extract.article_text article)).
Proof.
  destruct article as [title text]. cbn [Extract.article_title Extract.article_text].
  intros Hne Htr Hnl Hc.
  assert (Hlast : ∃ c, last_char ("HEADLINE: " +:+ title) = Some c ∧ isspace c = false).
  { destruct (last_char title) as [c|] eqn:E; [|by apply last_char_None in E].
    exists c. rewrite last_char_app by done. split; [done|]. by apply Htr. }
  assert (Hline : has_char (ascii_of_nat 10) ("HEADLINE: " +:+ title) = false).
  { by rewrite has_char_app, Hnl. }
  unfold Extract.with_headline. cbn [Extract.article_title Extract.article_text].
  assert (Ht : nonempty_text title = true).
  { unfold nonempty_text. by apply negb_true_iff, String.eqb_neq. }
  rewrite Ht. unfold strip. rewrite lstrip_id by (by intros c [= <-]).
  rewrite <- (ExtractMore.app_assoc_str "HEADLINE: " title).
  destruct (blank text) eqn:Hb.
  - rewrite rstrip_app_blank by (done || by rewrite !blank_app, Hb).
    rewrite (rstrip_blank text Hb). unfold headline_and_body.
    rewrite startswith_headline. rewrite split_char_no_sep by done.
    cbn [lookup list_lookup default from_option id length Nat.ltb Nat.leb].
    by rewrite headline_of_line.
  - pose proof (rstrip_nonblank text Hb) as Hr.
    assert (H1 : rstrip (Extract.nl +:+ text) = Extract.nl +:+ rstrip text)
      by (by apply rstrip_app_nonblank).
    assert (H2 : rstrip (Extract.nl +:+ Extract.nl +:+ text)
                 = Extract.nl +:+ Extract.nl +:+ rstrip text).
    { rewrite rstrip_app_nonblank; rewrite H1; [done|]. by apply app_nonempty_r. }
    rewrite rstrip_app_nonblank; rewrite H2; [|by apply app_nonempty_r, app_nonempty_r].
    unfold headline_and_body.
    assert (Hs : startswith "HEADLINE:"
                   (("HEADLINE: " +:+ title) +:+ Extract.nl +:+ Extract.nl +:+ rstrip text)
                 = true).
    { rewrite ExtractMore.app_assoc_str. apply startswith_headline. }
    rewrite Hs.
    change (Extract.nl +:+ Extract.nl +:+ rstrip text)
      with (String (ascii_of_nat 10) (String (ascii_of_nat 10) (rstrip text))).
    rewrite split_char_at by done.
    cbn [split_char]. rewrite Ascii.eqb_refl, split_char_zero.
    cbn [lookup list_lookup default from_option id length Nat.ltb Nat.leb].
    by rewrite headline_of_line.
Qed.

Lemma headline_round_trip_witness :
  headline_and_body (strip (Extract.with_headline
    {| Extract.article_title := "Storm hits coast";
       Extract.article_text := "Heavy rain fell. " |}))
  = ("Storm hits coast", "Heavy rain fell.").
Proof.
  apply (headline_round_trip {| Extract.article_title := "Storm hits coast";
                                Extract.article_text := "Heavy rain fell. " |});
    [done | | reflexivity | reflexivity].
  split; intros c [= <-]; reflexivity.
Defined.

Lemma remove_all_headline s :
  remove_all "HEADLINE:" ("HEADLINE:" +:+ s) = remove_all "HEADLINE:" s.
Proof. reflexivity. Qed.

(** X20: a content that starts with [HEADLINE:] is cut at its first two line
    feeds: the first line gives the headline, what follows the second line
    feed is the body, and the line in between, whatever it holds, reaches
    neither and is not shown to the model. *)
Theorem second_line_dropped (first second rest : string) :
  has_char (ascii_of_nat 10) first = false →
  has_char (ascii_of_nat 10) second = false →
  contains "HEADLINE:" first = false →
  headline_and_body ("HEADLINE:" +:+ first +:+ nl +:+ second +:+ nl +:+ rest)
  = (strip first, rest).
Proof.
  intros H1 H2 Hc. unfold headline_and_body.
  change (startswith "HEADLINE:" ("HEADLINE:" +:+ ?x)) with true. cbn [negb].
  rewrite <- (ExtractMore.app_assoc_str "HEADLINE:" first).
  change (nl +:+ second +:+ nl +:+ rest)
    with (String (ascii_of_nat 10) (second +:+ String (ascii_of_nat 10) rest)).
  rewrite split_char_at by (by rewrite has_char_app, H1).
  rewrite split_char_at by done. rewrite split_char_zero.
  cbn [lookup list_lookup default from_option id length Nat.ltb Nat.leb].
  rewrite remove_all_headline. unfold remove_all. by rewrite remove_from_clean.
Qed.

Lemma second_line_dropped_witness :
  headline_and_body ("HEADLINE:" +:+ " Flood warning" +:+ nl +:+ "Issued on Monday" +:+ nl
                     +:+ "Rivers are rising.")
  = ("Flood warning", "Rivers are rising.").
Proof.
  apply (second_line_dropped " Flood warning" "Issued on Monday" "Rivers are rising.");
    reflexivity.
Defined.

End PromptFacts.

(** ** The reply inside a code block *)
Module FenceFacts.
Import PyStr PyStrFacts Ends Groq GroqFacts.

Lemma startswith_self p r : startswith p (p +:+ r) = true.
Proof.
  induction p as [|c p IH]; [done|]. rewrite app_cons. cbn [startswith].
  by rewrite Ascii.eqb_refl.
Qed.

Lemma contains_unfold p s :
  contains p s
  = startswith p s || match s with "" => false | String _ s' => contains p s' end.
Proof. by destruct s. Qed.

Lemma contains_app p a r : contains p (a +:+ p +:+ r) = true.
Proof.
  induction a as [|c a IH].
  - change ("" +:+ p +:+ r) with (p +:+ r). by rewrite contains_unfold, startswith_self.
  - rewrite app_cons. cbn [contains]. rewrite IH. apply orb_true_r.
Qed.

(** A text without the first character of [p] does not contain [p]. *)
Lemma contains_no_first c p s : has_char c s = false → contains (String c p) s = false.
Proof.
  induction s as [|d s IH]; [done|]. cbn [has_char contains startswith].
  intros [Hd Hs]%orb_false_iff. by rewrite Hd, IH.
Qed.

(** Characters other than the first of the separator stay in the first piece. *)
Lemma split_from_prefix c p a s piece pieces :
  has_char c a = false →
  split_from (String c p) 0 s = piece :: pieces →
  split_from (String c p) 0 (a +:+ s) = (a +:+ piece) :: pieces.
Proof.
  intros Ha Hs. induction a as [|d a IH]; [done|]. cbn [has_char] in Ha.
  apply orb_false_iff in Ha as [Hd Ha]. rewrite app_cons.
  cbn [split_from startswith]. by rewrite Hd, IH.
Qed.

Lemma split_from_no_first c p s :
  has_char c s = false → split_from (String c p) 0 s = [s].
Proof.
  induction s as [|d s IH]; [done|]. cbn [has_char].
  intros [Hd Hs]%orb_false_iff. cbn [split_from startswith]. by rewrite Hd, IH.
Qed.

Lemma split_json_open r :
  split_from "```json" 0 ("```json" +:+ r) = "" :: split_from "```json" 0 r.
Proof. reflexivity. Qed.

Lemma split_fence_open r :
  split_from "```" 0 ("```" +:+ r) = "" :: split_from "```" 0 r.
Proof. reflexivity. Qed.

Lemma split_from_cons sep c s :
  split_from sep 0 (String c s)
  = if startswith sep (String c s) then "" :: split_from sep (len sep - 1) s
    else match split_from sep 0 s with
         | piece :: pieces => String c piece :: pieces
         | [] => [String c ""]
         end.
Proof. reflexivity. Qed.

(** Where the code block closes, the piece of the split at the opening
    marker either ends or goes on with the closing marker. *)
Lemma fence_close post :
  first_char post ≠ Some "`"%char →
  ∃ p ps, split_from "```json" 0 ("```" +:+ post) = p :: ps
          ∧ (p = "" ∨ ∃ q, p = "```" +:+ q).
Proof.
  intros Hpost.
  change ("```" +:+ post) with (String "`" (String "`" (String "`" post))).
  destruct post as [|b post].
  { eexists _, _. split; [reflexivity|]. right. by exists "". }
  assert (Hb : Ascii.eqb "`" b = false).
  { apply Ascii.eqb_neq. intros <-. by apply Hpost. }
  rewrite split_from_cons.
  destruct (startswith "```json" (String "`" (String "`" (String "`" (String b post))))).
  { eexists _, _. split; [reflexivity|]. by left. }
  assert (E2 : startswith "```json" (String "`" (String "`" (String b post))) = false)
    by (cbn [startswith]; rewrite Hb; by rewrite !Ascii.eqb_refl).
  assert (E3 : startswith "```json" (String "`" (String b post)) = false)
    by (cbn [startswith]; rewrite Hb; by rewrite !Ascii.eqb_refl).
  rewrite (split_from_cons _ "`" (String "`" _)), E2.
  rewrite (split_from_cons _ "`" (String b post)), E3.
  destruct (split_from "```json" 0 (String b post)) as [|q qs].
  - eexists _, _. split; [reflexivity|]. right. by exists "".
  - eexists _, _. split; [reflexivity|]. right. by exists q.
Qed.

Lemma no_tick_strip s : has_char "`" s = false → has_char "`" (strip s) = false.
Proof.
  intros H. destruct (has_char "`" (strip s)) eqn:E; [|done].
  apply HelpersFacts.has_char_strip in E. congruence.
Qed.

Lemma extract_fenced_plain s : has_char "`" s = false → extract_fenced s = Returned s.
Proof.
  intros H. unfold extract_fenced.
  by rewrite (contains_no_first "`" "``json" s H), (contains_no_first "`" "``" s H).
Qed.

Section Client.
Variable json_loads : string → outcome json.
Variable int_of_str : string → option Z.
Variable error_text : builtin_op → json → string.

Local Abbreviation parse_response := (Groq.parse_response json_loads int_of_str error_text).

(** X21: a reply that wraps its answer in a json code block is read as the
    answer alone.  When neither the text before the block nor the answer
    holds a backtick and the text after the block does not start with one,
    the unwrapping yields the answer with its outer whitespace removed,
    whatever surrounds the block, and the reply is parsed to the same
    result, or the same exception, as the bare answer. *)
Theorem fenced_reply_round_trip (before answer after : string) :
  has_char "`" before = false →
  has_char "`" answer = false →
  first_char after ≠ Some "`"%char →
  let reply := before +:+ "```json" +:+ answer +:+ "```" +:+ after in
  extract_fenced reply = Returned (strip answer)
  ∧ parse_response reply = parse_response (strip answer).
Proof.
  intros Hbefore Hanswer Hafter reply.
  assert (Hfenced : extract_fenced reply = Returned (strip answer)).
  { unfold extract_fenced, reply. rewrite contains_app. unfold split.
    destruct (fence_close after Hafter) as (p & ps & Hp & Hcase).
    rewrite (split_from_prefix "`" "``json" before _ "" ((answer +:+ p) :: ps) Hbefore)
      by (rewrite split_json_open; f_equal;
          by apply (split_from_prefix "`" "``json" answer)).
    change (py_index (?x :: ?y :: ?l) 1) with (Returned y). run.
    destruct Hcase as [-> | [q ->]].
    - rewrite app_empty_r, (split_from_no_first "`" "``" answer Hanswer).
      reflexivity.
    - rewrite (split_from_prefix "`" "``" answer _ "" _ Hanswer (split_fence_open q)).
      change (py_index (?x :: ?l) 0) with (Returned x). run.
      by rewrite app_empty_r. }
  split; [done|]. unfold Groq.parse_response.
  by rewrite Hfenced, (extract_fenced_plain (strip answer) (no_tick_strip _ Hanswer)).
Qed.

End Client.

Lemma fenced_reply_round_trip_witness :
  let reply := "Here is my analysis: " +:+ "```json" +:+ " {} " +:+ "```" +:+ " Done." in
  extract_fenced reply = Returned "{}"
  ∧ Groq.parse_response Demo.json_loads Demo.int_of_str Demo.error_text reply
    = Groq.parse_response Demo.json_loads Demo.int_of_str Demo.error_text "{}".
Proof.
  apply (fenced_reply_round_trip Demo.json_loads Demo.int_of_str Demo.error_text
           "Here is my analysis: " " {} " " Done."); [reflexivity | reflexivity | done].
Defined.

(** The hypothesis on the text after the block is needed: a backtick right
    after the closing marker ends up in the unwrapped text. *)
Example fenced_reply_trailing_tick :
  extract_fenced ("```json" +:+ "{}" +:+ "```" +:+ "`json") = Returned "{}`".
Proof. reflexivity. Qed.

End FenceFacts.
